(** * ScrapedDuck: the event detail extraction engine ([pages/detailed/event.js])

    A shallow embedding of the event page scraper and the properties of its
    raid schedule extraction.

    Modelling conventions.
    - A JavaScript string is a Rocq [string]; the text handled is taken to be
      ASCII, so [toLowerCase] lowers the letters A-Z, and [trim] and the
      regular expression class [\s] know the ASCII white space characters.
    - [null] and [undefined] are [None]; JavaScript truthiness of a string or
      null value is [truthy].
    - A regular expression is a value of [regex], run by a backtracking
      matcher that follows the ECMAScript matching order (leftmost start,
      alternatives left to right, greedy and lazy quantifiers).
    - The DOM is a tree of [element]s carrying the attributes the scraper
      reads; a node handle is a [cursor]: the element and its following
      element siblings.
    - The objects of the schedule are mutated in place by the scraper; the
      model passes the state explicitly and holds a reference to a day entry
      as its index in [raidSchedule] (entries are only ever appended). *)

From Stdlib Require Import String Ascii List Bool Arith.
From stdpp Require Import base relations list.

Set Warnings "-register-all".

Import ListNotations.
Local Open Scope string_scope.
Local Open Scope list_scope.
Local Open Scope nat_scope.

(** ** JavaScript strings *)

Module JsString.

Definition code (c : ascii) : nat := nat_of_ascii c.

Definition between (lo hi : nat) (c : ascii) : bool :=
  (lo <=? code c) && (code c <=? hi).

Definition is_upper : ascii -> bool := between 65 90.
Definition is_lower : ascii -> bool := between 97 122.
Definition is_digit : ascii -> bool := between 48 57.

(** [\s]: tab, line feed, vertical tab, form feed, carriage return, space. *)
Definition is_space (c : ascii) : bool := between 9 13 c || (code c =? 32).

(** [\w]: letters, digits and the underscore. *)
Definition is_word (c : ascii) : bool :=
  is_upper c || is_lower c || is_digit c || (code c =? 95).

(** Line terminators, the characters [.] does not match. *)
Definition is_line_terminator (c : ascii) : bool :=
  (code c =? 10) || (code c =? 13).

Definition lower_char (c : ascii) : ascii :=
  if is_upper c then ascii_of_nat (code c + 32) else c.

Definition upper_char (c : ascii) : ascii :=
  if is_lower c then ascii_of_nat (code c - 32) else c.

Fixpoint toLowerCase (s : string) : string :=
  match s with
  | EmptyString => EmptyString
  | String c s' => String (lower_char c) (toLowerCase s')
  end.

Definition chars (s : string) : list ascii := list_ascii_of_string s.
Definition of_chars (l : list ascii) : string := string_of_list_ascii l.

Fixpoint drop_spaces (l : list ascii) : list ascii :=
  match l with
  | c :: l' => if is_space c then drop_spaces l' else l
  | [] => []
  end.

(** [s.trim()] *)
Definition trim (s : string) : string :=
  of_chars (rev (drop_spaces (rev (drop_spaces (chars s))))).

Fixpoint starts_with (p l : list ascii) : bool :=
  match p, l with
  | [], _ => true
  | a :: p', b :: l' => Ascii.eqb a b && starts_with p' l'
  | _ :: _, [] => false
  end.

Fixpoint includes_chars (l p : list ascii) : bool :=
  starts_with p l ||
  match l with
  | [] => false
  | _ :: l' => includes_chars l' p
  end.

(** [s.includes(sub)] *)
Definition includes (s sub : string) : bool :=
  includes_chars (chars s) (chars sub).

(** JavaScript truthiness of a value that is a string or null. *)
Definition truthy (v : option string) : bool :=
  match v with
  | Some s => negb (String.eqb s "")
  | None => false
  end.

(** [s.charAt(0).toUpperCase() + s.slice(1)] *)
Definition capitalize (s : string) : string :=
  match s with
  | EmptyString => EmptyString
  | String c s' => String (upper_char c) s'
  end.

(** [s.split(sep)[0]] for a one-character separator. *)
Fixpoint before_sep (sep : ascii) (s : string) : string :=
  match s with
  | EmptyString => EmptyString
  | String c s' => if Ascii.eqb c sep then EmptyString else String c (before_sep sep s')
  end.

End JsString.

Import JsString.

(** ** Regular expressions *)

Module Regex.

Inductive regex : Type :=
| Empty
| Char (c : ascii)
| Class (negated : bool) (p : ascii -> bool)
| Cat (r1 r2 : regex)
| Or (r1 r2 : regex)
| Star (greedy : bool) (r : regex)
| Group (i : nat) (r : regex)
| Bol
| Eol.

(** The state of the matcher: the position in the input, the input left,
    and the captures recorded so far (latest first). *)
Record mstate : Type := MState {
  m_pos : nat;
  m_rest : list ascii;
  m_caps : list (nat * list ascii)
}.

Definition advance (st : mstate) (rest' : list ascii) : mstate :=
  MState (S (m_pos st)) rest' (m_caps st).

Definition record_group (i : nat) (st0 st1 : mstate) : mstate :=
  MState (m_pos st1) (m_rest st1)
         ((i, firstn (m_pos st1 - m_pos st0) (m_rest st0)) :: m_caps st1).

Definition char_matches (ic : bool) (c x : ascii) : bool :=
  if ic then Ascii.eqb (lower_char c) (lower_char x) else Ascii.eqb c x.

Definition class_matches (ic negated : bool) (p : ascii -> bool) (x : ascii) : bool :=
  xorb negated (p x || (ic && (p (lower_char x) || p (upper_char x)))).

(** [run ic r st k]: match [r] at [st], then continue with [k]; [None] asks
    the caller to backtrack. An iteration of a starred expression that
    consumes nothing is refused, as ECMAScript does, so the length of the
    remaining input bounds the number of iterations. *)
Fixpoint run (ic : bool) (r : regex) (st : mstate)
         (k : mstate -> option mstate) {struct r} : option mstate :=
  match r with
  | Empty => k st
  | Char c =>
      match m_rest st with
      | x :: rest' => if char_matches ic c x then k (advance st rest') else None
      | [] => None
      end
  | Class negated p =>
      match m_rest st with
      | x :: rest' => if class_matches ic negated p x then k (advance st rest') else None
      | [] => None
      end
  | Cat r1 r2 => run ic r1 st (fun st' => run ic r2 st' k)
  | Or r1 r2 =>
      match run ic r1 st k with
      | Some res => Some res
      | None => run ic r2 st k
      end
  | Star greedy r1 =>
      (fix iterate (fuel : nat) (st : mstate) {struct fuel} : option mstate :=
         match fuel with
         | O => k st
         | S fuel' =>
             if greedy then
               match run ic r1 st (fun st' =>
                       if m_pos st <? m_pos st' then iterate fuel' st' else None) with
               | Some res => Some res
               | None => k st
               end
             else
               match k st with
               | Some res => Some res
               | None => run ic r1 st (fun st' =>
                           if m_pos st <? m_pos st' then iterate fuel' st' else None)
               end
         end) (length (m_rest st)) st
  | Group i r1 => run ic r1 st (fun st' => k (record_group i st st'))
  | Bol => if m_pos st =? 0 then k st else None
  | Eol => match m_rest st with [] => k st | _ :: _ => None end
  end.

(** The result of [RegExp.prototype.exec]: where the match starts, the
    matched text and the captures. *)
Record rmatch : Type := RMatch {
  index : nat;
  matched : list ascii;
  captures : list (nat * list ascii)
}.

Definition match_at (ic : bool) (r : regex) (pos : nat) (rest : list ascii)
  : option rmatch :=
  match run ic r (MState pos rest []) Some with
  | Some st => Some (RMatch pos (firstn (m_pos st - pos) rest) (m_caps st))
  | None => None
  end.

Fixpoint search_from (ic : bool) (r : regex) (pos : nat) (rest : list ascii)
  : option rmatch :=
  match match_at ic r pos rest with
  | Some m => Some m
  | None =>
      match rest with
      | [] => None
      | _ :: rest' => search_from ic r (S pos) rest'
      end
  end.

(** [s.match(re)] for a regular expression without the [g] flag. *)
Definition exec (ic : bool) (r : regex) (s : string) : option rmatch :=
  search_from ic r 0 (chars s).

(** [re.test(s)] *)
Definition test (ic : bool) (r : regex) (s : string) : bool :=
  match exec ic r s with Some _ => true | None => false end.

(** [m[0]] *)
Definition whole (m : rmatch) : string := of_chars (matched m).

(** [m[i]] for a group that took part in the match (every group the scraper
    reads is outside any alternative or quantifier). *)
Definition group (m : rmatch) (i : nat) : string :=
  match List.find (fun p => fst p =? i) (captures m) with
  | Some p => of_chars (snd p)
  | None => ""
  end.

(** [s.replace(re, '')] without the [g] flag: the first match is removed. *)
Definition remove_first (ic : bool) (r : regex) (s : string) : string :=
  match exec ic r s with
  | Some m =>
      of_chars (firstn (index m) (chars s)
                ++ skipn (index m + length (matched m)) (chars s))
  | None => s
  end.

(** [s.split(re)] for an expression whose matches are never empty: the
    pieces between successive matches. [piece] is the text since the last
    separator, in reverse. *)
Fixpoint split_from (ic : bool) (r : regex) (fuel pos : nat)
         (rest piece : list ascii) : list string :=
  match fuel with
  | O => [of_chars (rev piece ++ rest)]
  | S fuel' =>
      match rest with
      | [] => [of_chars (rev piece)]
      | c :: rest' =>
          match match_at ic r pos rest with
          | Some m =>
              match length (matched m) with
              | O => split_from ic r fuel' (S pos) rest' (c :: piece)
              | S _ =>
                  of_chars (rev piece)
                  :: split_from ic r fuel' (pos + length (matched m))
                       (skipn (length (matched m)) rest) []
              end
          | None => split_from ic r fuel' (S pos) rest' (c :: piece)
          end
      end
  end.

Definition split (ic : bool) (r : regex) (s : string) : list string :=
  split_from ic r (S (String.length s)) 0 (chars s) [].

(** *** Notation for writing the expressions of the source *)

Fixpoint lit_chars (l : list ascii) : regex :=
  match l with
  | [] => Empty
  | [c] => Char c
  | c :: l' => Cat (Char c) (lit_chars l')
  end.

Definition lit (s : string) : regex := lit_chars (chars s).

Fixpoint alt (rs : list regex) : regex :=
  match rs with
  | [] => Class false (fun _ => false)
  | [r] => r
  | r :: rs' => Or r (alt rs')
  end.

Fixpoint cat (rs : list regex) : regex :=
  match rs with
  | [] => Empty
  | [r] => r
  | r :: rs' => Cat r (cat rs')
  end.

Definition star (r : regex) : regex := Star true r.
Definition plus (r : regex) : regex := Cat r (Star true r).
Definition plus_lazy (r : regex) : regex := Cat r (Star false r).
Definition opt (r : regex) : regex := Or r Empty.

Definition space : regex := Class false is_space.          (* \s *)
Definition word : regex := Class false is_word.            (* \w *)
Definition digit : regex := Class false is_digit.          (* \d *)
Definition dot : regex := Class true is_line_terminator.   (* . *)
Definition one_of (s : string) : ascii -> bool :=
  fun c => existsb (Ascii.eqb c) (chars s).
Definition none_of (s : string) : regex := Class true (one_of s).

End Regex.

Import Regex.

(** ** The data model of the event record *)

Record Boss : Type := mkBoss {
  name : string;
  image : string;
  canBeShiny : bool;
  raidType : option string
}.

Record RaidHourWindow : Type := mkRaidHour {
  time : string;
  rh_bosses : list Boss
}.

Record ScheduleDay : Type := mkDay {
  date : string;
  bosses : list Boss;
  raidHours : list RaidHourWindow;
  bonuses : list string
}.

Record EventData : Type := mkEventData {
  raidSchedule : list ScheduleDay;
  raidbattles : list Boss
}.

(** [globalInfo]: the raid hour and bonus information found while the
    sections are walked, distributed to the days afterwards. *)
Record GlobalInfo : Type := mkGlobalInfo {
  raidHourTime : option string;
  raidHourSectionId : option string;
  raidTypesWithRaidHour : list string;
  specialNotes : list string
}.

(** ** [getTierFromRaidType] *)

Definition getTierFromRaidType (raidType : option string) : option string :=
  if negb (truthy raidType) then None else
  match raidType with
  | None => None
  | Some raidType =>
      let raidTypeLower := toLowerCase raidType in
      if includes raidTypeLower "one-star" || includes raidTypeLower "1-star" then Some "Tier 1"
      else if includes raidTypeLower "three-star" || includes raidTypeLower "3-star" then Some "Tier 3"
      else if includes raidTypeLower "five-star" || includes raidTypeLower "5-star" then Some "Tier 5"
      else if includes raidTypeLower "six-star" || includes raidTypeLower "6-star" then Some "Tier 6"
      else if includes raidTypeLower "mega" then Some "Mega"
      else if includes raidTypeLower "primal" then Some "Primal"
      else if includes raidTypeLower "shadow" && negb (includes raidTypeLower "star") then Some "Shadow"
      else None
  end.

(** ** [parseRaidHeader] *)

Record ParsedHeader : Type := mkHeader {
  h_raidType : string;
  h_date : string
}.

Definition word_or_dash (c : ascii) : bool := is_word c || Ascii.eqb c "-".
Definition space_or_dash (c : ascii) : bool := is_space c || Ascii.eqb c "-".

(** [(Monday|Tuesday|Wednesday|Thursday|Friday|Saturday|Sunday)], as capture
    group [i] of the expression it is spliced into. *)
Definition dayPattern (i : nat) : regex :=
  Group i (alt [lit "Monday"; lit "Tuesday"; lit "Wednesday"; lit "Thursday";
                lit "Friday"; lit "Saturday"; lit "Sunday"]).

(** [dayPattern + ',\\s+\\w+\\s+\\d+'] *)
Definition datePattern (i : nat) : regex :=
  cat [dayPattern i; Char ","; plus space; plus word; plus space; plus digit].

(** [/([^:]+):\s*(.+)/] *)
Definition typeAndDateRegex : regex :=
  cat [Group 1 (plus (none_of ":")); Char ":"; star space; Group 2 (plus dot)].

(** [[\w-]+[\s-]*star[\s-]*(?:shadow\s+)?raids?] *)
Definition starRaidsPattern : regex :=
  cat [plus (Class false word_or_dash); star (Class false space_or_dash);
       lit "star"; star (Class false space_or_dash);
       opt (cat [lit "shadow"; plus space]); lit "raid"; opt (Char "s")].

(** ['appearing in\\s+(' + starRaidsPattern + ')\\s*\\((' + dayPattern + ')\\)'] *)
Definition dayInParensRegex : regex :=
  cat [lit "appearing in"; plus space; Group 1 starRaidsPattern; star space;
       Char "("; Group 2 (dayPattern 3); Char ")"].

Definition parseRaidHeader (headerText : string) (contextRaidType : option string)
  : option ParsedHeader :=
  let typeAndDate :=
    match exec false typeAndDateRegex headerText with
    | Some m =>
        if test true (datePattern 1) (group m 2)
        then Some (mkHeader (trim (group m 1)) (trim (group m 2)))
        else None
    | None => None
    end in
  match typeAndDate with
  | Some h => Some h
  | None =>
      let dateOnly :=
        match exec true (Cat Bol (datePattern 1)) headerText with
        | Some m =>
            match contextRaidType with
            | Some ctx =>
                if truthy contextRaidType then Some (mkHeader ctx (trim (whole m))) else None
            | None => None
            end
        | None => None
        end in
      match dateOnly with
      | Some h => Some h
      | None =>
          match exec true dayInParensRegex headerText with
          | Some m => Some (mkHeader (trim (group m 1)) (trim (group m 2)))
          | None => None
          end
      end
  end.

(** ** The document *)

(** An element with the attributes the scraper reads. [tagName] is in upper
    case, as the DOM gives it for HTML elements. *)
Inductive element : Type := Element {
  tagName : string;
  elem_id : string;
  className : string;
  textContent : string;
  innerHTML : string;
  src : string;
  children : list element
}.

(** A node handle: the element and its [nextElementSibling] chain. *)
Record cursor : Type := mkCursor {
  node : element;
  following : list element
}.

Definition has_tag (tag : string) (e : element) : bool := String.eqb (tagName e) tag.

Fixpoint tokens_from (l piece : list ascii) : list string :=
  match l with
  | [] => match piece with [] => [] | _ :: _ => [of_chars (rev piece)] end
  | c :: l' =>
      if is_space c
      then match piece with
           | [] => tokens_from l' []
           | _ :: _ => of_chars (rev piece) :: tokens_from l' []
           end
      else tokens_from l' (c :: piece)
  end.

(** [e.classList]: the white space separated tokens of [className]. *)
Definition classList (e : element) : list string := tokens_from (chars (className e)) [].

(** The selector [.cls]. *)
Definition has_class (cls : string) (e : element) : bool :=
  existsb (String.eqb cls) (classList e).

(** An element and its descendants in document order, each with its
    following siblings. *)
Fixpoint cursors_of (e : element) (after : list element) {struct e} : list cursor :=
  mkCursor e after ::
  match e with
  | Element _ _ _ _ _ _ kids =>
      (fix siblings (l : list element) : list cursor :=
         match l with
         | [] => []
         | c :: l' => cursors_of c l' ++ siblings l'
         end) kids
  end.

Fixpoint sibling_cursors (l : list element) : list cursor :=
  match l with
  | [] => []
  | c :: l' => cursors_of c l' ++ sibling_cursors l'
  end.

(** [root.querySelectorAll(sel)]: the descendants of [root] that satisfy the
    selector, in document order. *)
Definition querySelectorAll (sel : element -> bool) (root : element) : list cursor :=
  List.filter (fun c => sel (node c)) (sibling_cursors (children root)).

(** [root.querySelector(sel)] *)
Definition querySelector (sel : element -> bool) (root : element) : option cursor :=
  List.find (fun c => sel (node c)) (sibling_cursors (children root)).

(** The selector [h2#ident]. *)
Definition h2_with_id (ident : string) (e : element) : bool :=
  has_tag "H2" e && String.eqb (elem_id e) ident.

(** ** [collectSectionElements] *)

Fixpoint collect_until_h2 (siblings : list element) : list element :=
  match siblings with
  | [] => []
  | current :: rest =>
      if negb (String.eqb (tagName current) "H2")
      then current :: collect_until_h2 rest
      else []
  end.

Definition collectSectionElements (startH2 : cursor) : list element :=
  collect_until_h2 (following startH2).

(** ** [parseBossFromElement] and [parseBossesFromList] *)

Definition parseBossFromElement (bossElement : element) (raidType : option string)
  : option Boss :=
  (* :scope > .pkmn-name *)
  let nameElement := List.find (has_class "pkmn-name") (children bossElement) in
  (* :scope > .pkmn-list-img > img *)
  let imageElement :=
    List.find (has_tag "IMG")
      (flat_map children (List.filter (has_class "pkmn-list-img") (children bossElement))) in
  match nameElement, imageElement with
  | Some nameElement, Some imageElement =>
      Some {| name := trim (innerHTML nameElement);
              image := src imageElement;
              canBeShiny :=
                (* :scope > .shiny-icon *)
                match List.find (has_class "shiny-icon") (children bossElement) with
                | Some _ => true
                | None => false
                end;
              raidType := getTierFromRaidType raidType |}
  | _, _ => None
  end.

Definition parseBossesFromList (pokemonList : element) (raidType : option string)
  : list Boss :=
  (* :scope > .pkmn-list-item *)
  let bosses := List.filter (has_class "pkmn-list-item") (children pokemonList) in
  omap (fun boss => parseBossFromElement boss raidType) bosses.

(** ** Updates of the schedule *)

(** [array.findIndex(entry => entry.date === d)] *)
Fixpoint findDateIndex (d : string) (schedule : list ScheduleDay) : option nat :=
  match schedule with
  | [] => None
  | entry :: rest =>
      if String.eqb (date entry) d then Some 0
      else match findDateIndex d rest with
           | Some i => Some (S i)
           | None => None
           end
  end.

Definition newDay (d : string) : ScheduleDay :=
  {| date := d; bosses := []; raidHours := []; bonuses := [] |}.

(** Find or create the entry for a date; the entry is returned as its index
    in the schedule. *)
Definition findOrCreateDay (d : string) (ed : EventData) : EventData * nat :=
  match findDateIndex d (raidSchedule ed) with
  | Some i => (ed, i)
  | None =>
      ({| raidSchedule := raidSchedule ed ++ [newDay d];
          raidbattles := raidbattles ed |},
       length (raidSchedule ed))
  end.

Definition hasBossNamed (n : string) (l : list Boss) : bool :=
  existsb (fun existing => String.eqb (name existing) n) l.

(** [if (!list.some(existing => existing.name === boss.name)) list.push(boss)] *)
Definition pushBossIfNew (l : list Boss) (boss : Boss) : list Boss :=
  if negb (hasBossNamed (name boss) l) then l ++ [boss] else l.

Definition addBossesToList (l : list Boss) (found : list Boss) : list Boss :=
  fold_left pushBossIfNew found l.

Definition setBosses (l : list Boss) (day : ScheduleDay) : ScheduleDay :=
  {| date := date day; bosses := l; raidHours := raidHours day; bonuses := bonuses day |}.

Definition pushRaidHour (w : RaidHourWindow) (day : ScheduleDay) : ScheduleDay :=
  {| date := date day; bosses := bosses day;
     raidHours := raidHours day ++ [w]; bonuses := bonuses day |}.

Definition pushBonus (note : string) (day : ScheduleDay) : ScheduleDay :=
  {| date := date day; bosses := bosses day;
     raidHours := raidHours day; bonuses := bonuses day ++ [note] |}.

Definition updateDay (i : nat) (f : ScheduleDay -> ScheduleDay) (ed : EventData)
  : EventData :=
  {| raidSchedule := alter f i (raidSchedule ed); raidbattles := raidbattles ed |}.

Definition addBossesToDay (i : nat) (found : list Boss) (ed : EventData) : EventData :=
  updateDay i (fun day => setBosses (addBossesToList (bosses day) found) day) ed.

Definition addBossesToRaidbattles (found : list Boss) (ed : EventData) : EventData :=
  {| raidSchedule := raidSchedule ed;
     raidbattles := addBossesToList (raidbattles ed) found |}.

(** ** [processDayRaidSection] *)

(** The local variables of the loop over the elements of a day section. *)
Record DayVars : Type := mkDayVars {
  d_currentRaidType : option string;
  d_raidHourTime : option string;
  d_raidHourBossNames : list string;
  d_inRaidHourSection : bool
}.

Definition digit_or_colon (c : ascii) : bool := is_digit c || Ascii.eqb c ":".

(** [/from ([\d:]+\s+[ap]\.?m\.?\s+to\s+[\d:]+\s+[ap]\.?m\.?)/i] *)
Definition dayTimeRegex : regex :=
  let clock := cat [plus (Class false digit_or_colon); plus space;
                    Class false (one_of "ap"); opt (Char "."); Char "m"; opt (Char ".")] in
  cat [lit "from "; Group 1 (cat [clock; plus space; lit "to"; plus space; clock])].

(** [/featuring\s+([^.]+?)(?:\s+from|\s*\.)/i] *)
Definition featuringRegex : regex :=
  cat [lit "featuring"; plus space; Group 1 (plus_lazy (none_of "."));
       Or (cat [plus space; lit "from"]) (cat [star space; Char "."])].

(** [/,|\s+and\s+/] *)
Definition nameSeparator : regex :=
  Or (Char ",") (cat [plus space; lit "and"; plus space]).

Definition dayHeading (element : element) (v : DayVars) : DayVars :=
  if has_tag "H3" element && truthy (Some (textContent element)) then
    let h3Text := trim (textContent element) in
    let h3Lower := toLowerCase h3Text in
    if includes h3Lower "raid hour" then
      mkDayVars None (d_raidHourTime v) (d_raidHourBossNames v) true
    else if includes h3Lower "star" && includes h3Lower "raids" then
      mkDayVars (Some h3Text) (d_raidHourTime v) (d_raidHourBossNames v) false
    else if includes h3Lower "primal" && includes h3Lower "raids" then
      mkDayVars (Some "Primal Raids") (d_raidHourTime v) (d_raidHourBossNames v) false
    else if includes h3Lower "mega" && includes h3Lower "raids" then
      mkDayVars (Some "Mega Raids") (d_raidHourTime v) (d_raidHourBossNames v) false
    else if includes h3Lower "shadow" && includes h3Lower "raids" then
      mkDayVars (Some "Shadow Raids") (d_raidHourTime v) (d_raidHourBossNames v) false
    else v
  else v.

Definition dayPokemonList (dateEntry : nat) (element : element) (v : DayVars)
           (ed : EventData) : EventData :=
  if String.eqb (className element) "pkmn-list-flex"
     && truthy (d_currentRaidType v) && negb (d_inRaidHourSection v)
  then addBossesToDay dateEntry (parseBossesFromList element (d_currentRaidType v)) ed
  else ed.

Definition dayRaidHourText (element : element) (v : DayVars) : DayVars :=
  if has_tag "P" element && d_inRaidHourSection v then
    let text := trim (textContent element) in
    let textLower := toLowerCase text in
    if includes textLower "raid hour" then
      let raidHourTime' :=
        match exec true dayTimeRegex text with
        | Some timeMatch => Some (String.append (group timeMatch 1) " local time")
        | None => d_raidHourTime v
        end in
      let raidHourBossNames' :=
        match exec true featuringRegex text with
        | Some featuringMatch =>
            List.filter (fun n => 0 <? String.length n)
              (map trim (split false nameSeparator (group featuringMatch 1)))
        | None => d_raidHourBossNames v
        end in
      mkDayVars (d_currentRaidType v) raidHourTime' raidHourBossNames' (d_inRaidHourSection v)
    else v
  else v.

(** One turn of [elements.forEach] in [processDayRaidSection]. *)
Definition dayStep (dateEntry : nat) (st : DayVars * EventData) (element : element)
  : DayVars * EventData :=
  let v1 := dayHeading element (fst st) in
  let ed1 := dayPokemonList dateEntry element v1 (snd st) in
  (dayRaidHourText element v1, ed1).

(** The bosses of the day that a raid hour name refers to. *)
Definition matchesRaidHourName (raidHourBossNames : list string) (boss : Boss) : bool :=
  existsb (fun raidHourName =>
             includes (toLowerCase (name boss)) (toLowerCase raidHourName))
          raidHourBossNames.

(** The block "Create raid hour entry if we have the data". *)
Definition dayRaidHourEntry (dateEntry : nat) (v : DayVars) (ed : EventData) : EventData :=
  if truthy (d_raidHourTime v) && (0 <? length (d_raidHourBossNames v)) then
    match d_raidHourTime v, raidSchedule ed !! dateEntry with
    | Some t, Some day =>
        let raidHourBosses :=
          List.filter (matchesRaidHourName (d_raidHourBossNames v)) (bosses day) in
        if 0 <? length raidHourBosses
        then updateDay dateEntry (pushRaidHour (mkRaidHour t raidHourBosses)) ed
        else ed
    | _, _ => ed
    end
  else ed.

Definition processDayRaidSection (elements : list element) (dayHeader : string)
           (ed : EventData) (globalInfo : GlobalInfo) : EventData :=
  let baseDate := trim (before_sep ":" dayHeader) in
  let '(ed0, dateEntry) := findOrCreateDay baseDate ed in
  let '(v, ed1) :=
    fold_left (dayStep dateEntry) elements (mkDayVars None None [] false, ed0) in
  dayRaidHourEntry dateEntry v ed1.

(** ** [processRaidsSection] *)

(** The local variables of the loop over the elements of a raids section;
    [currentDateEntry] refers to an entry of the schedule by its index. *)
Record SectionVars : Type := mkSectionVars {
  contextRaidType : option string;
  currentDate : option string;
  currentRaidType : option string;
  currentDateEntry : option nat
}.

(** [/appearing in\s+([\w-]+)[\s-]*raids?/i] *)
Definition appearingInRegex : regex :=
  cat [lit "appearing in"; plus space; Group 1 (plus (Class false word_or_dash));
       star (Class false space_or_dash); lit "raid"; opt (Char "s")].

(** [/-star$/i] and [/\s+star$/i] *)
Definition dashStarSuffix : regex := cat [lit "-star"; Eol].
Definition spaceStarSuffix : regex := cat [plus space; lit "star"; Eol].

(** [/([\w-]+[\s-]*star[\s-]*(?:shadow\s+)?raids?)/i] *)
Definition directStarRaidsRegex : regex := Group 1 starRaidsPattern.

(** [/from ([\d:]+\s+[ap]\.m\.\s+to\s+[\d:]+\s+[ap]\.m\.)/i] *)
Definition sectionTimeRegex : regex :=
  let clock := cat [plus (Class false digit_or_colon); plus space;
                    Class false (one_of "ap"); Char "."; Char "m"; Char "."] in
  cat [lit "from "; Group 1 (cat [clock; plus space; lit "to"; plus space; clock])].

(** The raid type context named by a heading that is not a date header. *)
Definition updateContext (h3Text : string) (context : option string) : option string :=
  let h3Lower := toLowerCase h3Text in
  if includes h3Lower "appearing in" && includes h3Lower "raids" then
    match exec true appearingInRegex h3Text with
    | Some typeMatch =>
        let base :=
          trim (remove_first true spaceStarSuffix
                  (remove_first true dashStarSuffix (toLowerCase (group typeMatch 1)))) in
        Some (String.append (capitalize base) "-Star Raids")
    | None => context
    end
  else if includes h3Lower "star" && includes h3Lower "raids" then
    match exec true directStarRaidsRegex h3Text with
    | Some directMatch => Some (trim (group directMatch 1))
    | None => context
    end
  else if includes h3Lower "primal" && includes h3Lower "raids" then Some "Primal Raids"
  else if includes h3Lower "mega" && includes h3Lower "raids" then Some "Mega Raids"
  else if includes h3Lower "shadow" && includes h3Lower "raids"
          && negb (includes h3Lower "star") then Some "Shadow Raids"
  else context.

Definition sectionHeading (element : element) (st : SectionVars * EventData)
  : SectionVars * EventData :=
  let '(v, ed) := st in
  if has_tag "H3" element && truthy (Some (textContent element)) then
    let h3Text := trim (textContent element) in
    match parseRaidHeader h3Text (contextRaidType v) with
    | Some parsedHeader =>
        let '(ed', entry) := findOrCreateDay (h_date parsedHeader) ed in
        (mkSectionVars (contextRaidType v) (Some (h_date parsedHeader))
                       (Some (h_raidType parsedHeader)) (Some entry), ed')
    | None =>
        (mkSectionVars (updateContext h3Text (contextRaidType v)) None None None, ed)
    end
  else st.

Definition sectionPokemonList (element : element) (v : SectionVars) (ed : EventData)
  : EventData :=
  if String.eqb (className element) "pkmn-list-flex" then
    match currentDateEntry v with
    | Some entry =>
        if truthy (currentDate v)
        then addBossesToDay entry (parseBossesFromList element (currentRaidType v)) ed
        else addBossesToRaidbattles (parseBossesFromList element (contextRaidType v)) ed
    | None => addBossesToRaidbattles (parseBossesFromList element (contextRaidType v)) ed
    end
  else ed.

(** [if (!keywords.includes(k)) keywords.push(k)] *)
Definition pushKeyword (k : string) (keywords : list string) : list string :=
  if negb (existsb (String.eqb k) keywords) then keywords ++ [k] else keywords.

Definition sectionRaidHourText (sectionId : string) (element : element) (gi : GlobalInfo)
  : GlobalInfo :=
  if has_tag "P" element && includes (textContent element) "Raid Hour" then
    let raidHourText := trim (textContent element) in
    let raidHourLower := toLowerCase raidHourText in
    let time' :=
      match exec true sectionTimeRegex raidHourText with
      | Some timeMatch => Some (String.append (group timeMatch 1) " local time")
      | None => raidHourTime gi
      end in
    let k1 := if includes raidHourLower "five-star" || includes raidHourLower "5-star"
              then pushKeyword "five-star" (raidTypesWithRaidHour gi)
              else raidTypesWithRaidHour gi in
    let k2 := if includes raidHourLower "shadow" then pushKeyword "shadow" k1 else k1 in
    let k3 := if includes raidHourLower "mega" then pushKeyword "mega" k2 else k2 in
    let k4 := if includes raidHourLower "primal" then pushKeyword "primal" k3 else k3 in
    mkGlobalInfo time' (Some sectionId) k4 (specialNotes gi)
  else gi.

Definition sectionBonusNote (element : element) (gi : GlobalInfo) : GlobalInfo :=
  if has_tag "P" element then
    let noteTextLower := toLowerCase (textContent element) in
    if includes noteTextLower "fusion energy" || includes noteTextLower "mega energy"
       || includes noteTextLower "primal energy"
       || includes noteTextLower "adventure effect move" then
      let noteText := trim (textContent element) in
      if 10 <? String.length noteText
      then mkGlobalInfo (raidHourTime gi) (raidHourSectionId gi)
                        (raidTypesWithRaidHour gi) (specialNotes gi ++ [noteText])
      else gi
    else gi
  else gi.

(** The state threaded through the traversal: the loop variables, the event
    record and the global information. *)
Definition SectionState : Type := SectionVars * EventData * GlobalInfo.

(** One turn of [elements.forEach] in [processRaidsSection]. *)
Definition sectionStep (sectionId : string) (st : SectionState) (element : element)
  : SectionState :=
  let '(v, ed, gi) := st in
  let '(v1, ed1) := sectionHeading element (v, ed) in
  let ed2 := sectionPokemonList element v1 ed1 in
  let gi1 := sectionRaidHourText sectionId element gi in
  (v1, ed2, sectionBonusNote element gi1).

Definition bossTypeLower (boss : Boss) : string :=
  match raidType boss with
  | Some t => if truthy (raidType boss) then toLowerCase t else ""
  | None => ""
  end.

Definition matchesRaidHourKeyword (keywords : list string) (boss : Boss) : bool :=
  existsb (fun keyword => includes (bossTypeLower boss) keyword) keywords.

(** One turn of the loop over the days in a raid hour distribution: a day
    without raid hours gets a window with the selected bosses, if any. *)
Definition attachRaidHour (t : string) (select : Boss -> bool) (day : ScheduleDay)
  : ScheduleDay :=
  match raidHours day with
  | [] =>
      let selected := List.filter select (bosses day) in
      if 0 <? length selected then pushRaidHour (mkRaidHour t selected) day else day
  | _ :: _ => day
  end.

(** The block "Create raid hour entries for scheduled days" that ends
    [processRaidsSection]. *)
Definition createRaidHourEntries (gi : GlobalInfo) (ed : EventData) : EventData :=
  match raidHourTime gi with
  | Some t =>
      if truthy (raidHourTime gi) then
        {| raidSchedule :=
             map (attachRaidHour t (matchesRaidHourKeyword (raidTypesWithRaidHour gi)))
                 (raidSchedule ed);
           raidbattles := raidbattles ed |}
      else ed
  | None => ed
  end.

Definition initialSectionVars (sectionId : string) : SectionVars :=
  mkSectionVars
    (if String.eqb sectionId "appearing-in-5-star-raids" then Some "Five-Star Raids" else None)
    None None None.

(** The loop of [processRaidsSection] alone. *)
Definition traverseRaidsSection (elements : list element) (sectionId : string)
           (ed : EventData) (gi : GlobalInfo) : EventData * GlobalInfo :=
  let '(_, ed', gi') :=
    fold_left (sectionStep sectionId) elements (initialSectionVars sectionId, ed, gi) in
  (ed', gi').

Definition processRaidsSection (elements : list element) (sectionId : string)
           (ed : EventData) (gi : GlobalInfo) : EventData * GlobalInfo :=
  let '(ed', gi') := traverseRaidsSection elements sectionId ed gi in
  (createRaidHourEntries gi' ed', gi').

(** ** [get]: the extraction of a page *)

(** [/^(Monday|Tuesday|Wednesday|Thursday|Friday|Saturday|Sunday),\s+\w+\s+\d+/i] *)
Definition dayHeadingRegex : regex := Cat Bol (datePattern 1).

(** [/\s*\(.*\)/] *)
Definition parenthetical : regex := cat [star space; Char "("; star dot; Char ")"].

Definition emptyEventData : EventData := {| raidSchedule := []; raidbattles := [] |}.

Definition emptyGlobalInfo : GlobalInfo :=
  {| raidHourTime := None; raidHourSectionId := None;
     raidTypesWithRaidHour := []; specialNotes := [] |}.

(** [if (h2) processRaidsSection(collectSectionElements(h2), sectionId, ...)] *)
Definition processAnchor (pageContent : element) (sectionId : string)
           (st : EventData * GlobalInfo) : EventData * GlobalInfo :=
  match querySelector (h2_with_id sectionId) pageContent with
  | Some h2 => processRaidsSection (collectSectionElements h2) sectionId (fst st) (snd st)
  | None => st
  end.

(** One turn of [allH2.forEach]. *)
Definition processDayHeading (gi : GlobalInfo) (ed : EventData) (h2 : cursor)
  : EventData :=
  let h2Text := trim (textContent (node h2)) in
  if test true dayHeadingRegex h2Text
  then processDayRaidSection (collectSectionElements h2) h2Text ed gi
  else ed.

(** All the traversal of the page: the two anchored sections, then the day
    sections. *)
Definition traversePage (pageContent : element) : EventData * GlobalInfo :=
  let st1 := processAnchor pageContent "raids" (emptyEventData, emptyGlobalInfo) in
  let st2 := processAnchor pageContent "appearing-in-5-star-raids" st1 in
  (fold_left (processDayHeading (snd st2))
             (querySelectorAll (has_tag "H2") pageContent) (fst st2),
   snd st2).

Definition isFiveStarBoss (boss : Boss) : bool :=
  let typeLower := bossTypeLower boss in
  includes typeLower "tier 5" || includes typeLower "five".

(** "Distribute raid hour info to scheduled days if found in
    appearing-in-5-star-raids section". *)
Definition distributeFiveStarRaidHour (gi : GlobalInfo) (ed : EventData) : EventData :=
  match raidHourTime gi, raidHourSectionId gi with
  | Some t, Some sectionId =>
      if truthy (raidHourTime gi) && String.eqb sectionId "appearing-in-5-star-raids" then
        {| raidSchedule := map (attachRaidHour t isFiveStarBoss) (raidSchedule ed);
           raidbattles := raidbattles ed |}
      else ed
  | _, _ => ed
  end.

Definition noteMentions (noteLower : string) (boss : Boss) : bool :=
  let bossNameVariants :=
    [toLowerCase (name boss);
     toLowerCase (remove_first false parenthetical (name boss))] in
  existsb (fun variant => includes noteLower variant) bossNameVariants.

Definition attachBonus (note : string) (day : ScheduleDay) : ScheduleDay :=
  let noteLower := toLowerCase note in
  if existsb (noteMentions noteLower) (bosses day) then pushBonus note day else day.

Definition distributeNote (ed : EventData) (note : string) : EventData :=
  {| raidSchedule := map (attachBonus note) (raidSchedule ed);
     raidbattles := raidbattles ed |}.

(** "Distribute special bonuses to relevant raid days". *)
Definition distributeBonuses (gi : GlobalInfo) (ed : EventData) : EventData :=
  fold_left distributeNote (specialNotes gi) ed.

(** The body of the [then] handler, from the page content to the event
    record that is written. *)
Definition extractEventData (pageContent : element) : EventData :=
  let '(ed, gi) := traversePage pageContent in
  distributeBonuses gi (distributeFiveStarRaidHour gi ed).

(** ** The fallback on the backup data *)

Inductive json : Type :=
| JNull
| JBool (b : bool)
| JNumber (literal : string)
| JString (s : string)
| JArray (items : list json)
| JObject (fields : list (string * json)).

(** An entry of the backup array ([events.min.json]); [extraData] is an
    object or null. *)
Record BackupEntry : Type := mkBackup {
  eventID : string;
  extraData : option (list (string * json))
}.

(** [key in obj] and [obj.key] *)
Definition hasKey (key : string) (obj : list (string * json)) : bool :=
  existsb (fun kv => String.eqb (fst kv) key) obj.

Definition getKey (key : string) (obj : list (string * json)) : option json :=
  match List.find (fun kv => String.eqb (fst kv) key) obj with
  | Some kv => Some (snd kv)
  | None => None
  end.

(** [Object.keys(v).length]; [None] when [Object.keys] throws. *)
Definition keyCount (v : json) : option nat :=
  match v with
  | JNull => None
  | JBool _ | JNumber _ => Some 0
  | JString s => Some (String.length s)
  | JArray items => Some (length items)
  | JObject fields => Some (length fields)
  end.

Inductive RecordData : Type :=
| Extracted (eventData : EventData)
| Recovered (fallbackData : json).

(** A record written to [files/temp/<id>.json]. *)
Record OutputRecord : Type := mkOutput {
  out_id : string;
  out_type : string;
  out_data : RecordData
}.

(** What a call of [get] does: the records it writes, in order, and whether
    it completes (the promise is resolved) or an error escapes. *)
Record Outcome : Type := mkOutcome {
  written : list OutputRecord;
  completed : bool
}.

(** The data recovered from the extra data of a backup entry. *)
Definition fallbackDataOf (extra : list (string * json)) : json :=
  if hasKey "event" extra then
    match getKey "event" extra with
    | Some nested => nested
    | None => JNull
    end
  else
      let f1 := match getKey "raidSchedule" extra with
                | Some v => [("raidSchedule", v)]
                | None => []
                end in
      let f2 := match getKey "raidbattles" extra with
                | Some v => f1 ++ [("raidbattles", v)]
                | None => f1
                end in
      JObject f2.

(** The loop of the [catch] handler over the backup array. *)
Fixpoint fallback (id : string) (bkp : list BackupEntry) : Outcome :=
  match bkp with
  | [] => mkOutcome [] true
  | entry :: rest =>
      match extraData entry with
      | Some extra =>
          if String.eqb (eventID entry) id then
            let fallbackData := fallbackDataOf extra in
            match keyCount fallbackData with
            | Some n =>
                let out := fallback id rest in
                if 0 <? n
                then mkOutcome (mkOutput id "event" (Recovered fallbackData) :: written out)
                               (completed out)
                else out
            | None => mkOutcome [] false
            end
          else fallback id rest
      | None => fallback id rest
      end
  end.

(** [get(url, id, bkp)]. [dom] is what [JSDOM.fromURL(url)] gives: the
    document node, or nothing when the page cannot be fetched or parsed.
    A page without [.page-content] makes the [then] handler throw, which the
    [catch] handler receives like a failed fetch. *)
Definition get (dom : option element) (id : string) (bkp : list BackupEntry) : Outcome :=
  match dom with
  | Some document =>
      match querySelector (has_class "page-content") document with
      | Some pageContent =>
          mkOutcome [mkOutput id "event" (Extracted (extractEventData (node pageContent)))]
                    true
      | None => fallback id bkp
      end
  | None => fallback id bkp
  end.

(** ** Building documents *)

Module Html.

Definition tag (t ident cls text : string) (kids : list element) : element :=
  Element t ident cls text text "" kids.

Definition h2 (ident text : string) : element := tag "H2" ident "" text [].
Definition h1 (text : string) : element := tag "H1" "" "" text [].
Definition h3 (text : string) : element := tag "H3" "" "" text [].
Definition p (text : string) : element := tag "P" "" "" text [].
Definition img (url : string) : element := Element "IMG" "" "" "" "" url [].

(** A [.pkmn-list-item] with its name, its image and, when [shiny], the
    shiny icon. *)
Definition pokemon (shiny : bool) (n url : string) : element :=
  tag "LI" "" "pkmn-list-item" n
      ((if shiny then [Element "IMG" "" "shiny-icon" "" "" "" []] else [])
       ++ [tag "DIV" "" "pkmn-list-img" "" [img url]; tag "DIV" "" "pkmn-name" n []]).

Definition pokemonList (items : list element) : element :=
  tag "UL" "" "pkmn-list-flex" "" items.

Definition pageContent (kids : list element) : element :=
  tag "DIV" "" "page-content" "" kids.

End Html.

Import Html.

(** * The vocabulary of the properties, and sample inputs *)

(** ** Invariants of the record *)

(** A property of the days ([dayP]) and of the static list ([staticP]) holds
    of a record. *)
Definition holds (dayP : ScheduleDay -> Prop) (staticP : list Boss -> Prop)
           (ed : EventData) : Prop :=
  Forall dayP (raidSchedule ed) /\ staticP (raidbattles ed).

Definition tierLabels : list string :=
  ["Tier 1"; "Tier 3"; "Tier 5"; "Tier 6"; "Mega"; "Primal"; "Shadow"].

(** A value of the closed enumeration, or null. *)
Definition isTierOrNull (t : option string) : Prop :=
  match t with
  | None => True
  | Some label => In label tierLabels
  end.

Definition uniqueBossNames (l : list Boss) : Prop := List.NoDup (map name l).

Definition tiersClosed (l : list Boss) : Prop :=
  Forall (fun boss => isTierOrNull (raidType boss)) l.

(** Every boss of the record, of a day or static, carries a tier label or
    null. *)
Definition parsedTiers (ed : EventData) : Prop :=
  holds (fun day => tiersClosed (bosses day)) tiersClosed ed.

(** The bosses of every raid hour window of the day are bosses of the day. *)
Definition windowsWithinDay (day : ScheduleDay) : Prop :=
  Forall (fun w => incl (rh_bosses w) (bosses day)) (raidHours day).

(** ** Sample pages and their records *)

(** A day section with a raid hour, and a raids section with a static list
    and a bonus note. *)
Definition unovaPage : element := pageContent [
  h2 "" "Friday, February 27: Unova (Black Kyurem)";
  h3 "Five-Star Raids";
  pokemonList [pokemon true "Kyurem (Black)" "kyurem-black.png";
               pokemon true "Zekrom" "zekrom.png";
               pokemon false "Zekrom" "zekrom-2.png"];
  h3 "Raid Hours";
  p "Raid Hour featuring Zekrom, Kyurem and Reshiram from 6:00 p.m. to 7:00 p.m. local time.";
  h2 "raids" "Raids";
  h3 "Appearing in 3-Star Raids";
  pokemonList [pokemon true "Druddigon" "druddigon.png"];
  p "Get Fusion Energy from Kyurem raids"
].

(** The document that holds the page. *)
Definition unovaDocument : element :=
  tag "#document" "" "" "" [tag "HTML" "" "" "" [tag "BODY" "" "" "" [unovaPage]]].

Definition kyuremBlack : Boss :=
  {| name := "Kyurem (Black)"; image := "kyurem-black.png";
     canBeShiny := true; raidType := Some "Tier 5" |}.

Definition zekrom : Boss :=
  {| name := "Zekrom"; image := "zekrom.png"; canBeShiny := true; raidType := Some "Tier 5" |}.

Definition unovaWindow : RaidHourWindow :=
  {| time := "6:00 p.m. to 7:00 p.m. local time"; rh_bosses := [kyuremBlack; zekrom] |}.

Definition unovaDay : ScheduleDay :=
  {| date := "Friday, February 27"; bosses := [kyuremBlack; zekrom];
     raidHours := [unovaWindow]; bonuses := ["Get Fusion Energy from Kyurem raids"] |}.

Definition unovaData : EventData :=
  {| raidSchedule := [unovaDay];
     raidbattles := [{| name := "Druddigon"; image := "druddigon.png";
                        canBeShiny := true; raidType := Some "Tier 3" |}] |}.

Definition unovaRecord : OutputRecord := mkOutput "unova" "event" (Extracted unovaData).

(** A five-star section whose raid hour paragraph names five-star raids. *)
Definition fiveStarPage : element := pageContent [
  h2 "appearing-in-5-star-raids" "Appearing in 5-Star Raids";
  h3 "Saturday, November 15";
  pokemonList [pokemon true "Kyurem" "kyurem.png"; pokemon false "Lugia" "lugia.png"];
  p "Raid Hour will feature five-star raids from 6:00 p.m. to 7:00 p.m. local time."
].

Definition fiveStarSection : list element :=
  collect_until_h2 (skipn 1 (children fiveStarPage)).

(** ** The raid hour passes *)

(** A pass over the record that keeps every day with a raid hour window as
    it is, and changes a day without one only by pushing one window. *)
Definition keepsDaysWithWindows (pass : EventData -> EventData) : Prop :=
  forall ed i day,
    raidSchedule ed !! i = Some day ->
    (raidHours day <> [] -> raidSchedule (pass ed) !! i = Some day)
    /\ (forall day',
           raidSchedule (pass ed) !! i = Some day' -> day' <> day ->
           raidHours day = [] /\
           date day' = date day /\ bosses day' = bosses day /\ bonuses day' = bonuses day /\
           exists w, raidHours day' = [w]).

(** The state of [get] on [fiveStarPage] when the traversal is done. *)
Definition fiveStarDay : ScheduleDay :=
  {| date := "Saturday, November 15";
     bosses := [{| name := "Kyurem"; image := "kyurem.png";
                   canBeShiny := true; raidType := Some "Tier 5" |};
                {| name := "Lugia"; image := "lugia.png";
                   canBeShiny := false; raidType := Some "Tier 5" |}];
     raidHours := []; bonuses := [] |}.

Definition fiveStarInfo : GlobalInfo :=
  {| raidHourTime := Some "6:00 p.m. to 7:00 p.m. local time";
     raidHourSectionId := Some "appearing-in-5-star-raids";
     raidTypesWithRaidHour := ["five-star"];
     specialNotes := [] |}.

(** ** The order of the passes *)

(** The extraction as the specification words it: the anchored sections and
    the day sections are only traversed, then each pass runs once. *)
Definition traverseAnchor (pageContent : element) (sectionId : string)
           (st : EventData * GlobalInfo) : EventData * GlobalInfo :=
  match querySelector (h2_with_id sectionId) pageContent with
  | Some h2 => traverseRaidsSection (collectSectionElements h2) sectionId (fst st) (snd st)
  | None => st
  end.

Definition extractAsSpecified (pageContent : element) : EventData :=
  let st1 := traverseAnchor pageContent "raids" (emptyEventData, emptyGlobalInfo) in
  let st2 := traverseAnchor pageContent "appearing-in-5-star-raids" st1 in
  let gi := snd st2 in
  let ed :=
    fold_left (processDayHeading gi) (querySelectorAll (has_tag "H2") pageContent) (fst st2) in
  distributeBonuses gi (createRaidHourEntries gi (distributeFiveStarRaidHour gi ed)).

(** A raids section with a raid hour paragraph on Mega raids, and a day
    section that lists a Mega raid boss. *)
Definition megaDayPage : element := pageContent [
  h2 "raids" "Raids";
  p "Raid Hour will feature Mega Raids from 6:00 p.m. to 7:00 p.m. local time.";
  h2 "" "Monday, February 23: Kanto";
  h3 "Mega Raids";
  pokemonList [pokemon true "Mega Charizard X" "charizard-x.png"]
].

Definition megaCharizard : Boss :=
  {| name := "Mega Charizard X"; image := "charizard-x.png";
     canBeShiny := true; raidType := Some "Mega" |}.

(** The notes that mention a boss of the day. *)
Definition notesOfDay (notes : list string) (day : ScheduleDay) : list string :=
  List.filter (fun note => existsb (noteMentions (toLowerCase note)) (bosses day)) notes.

Definition addBonuses (notes : list string) (day : ScheduleDay) : ScheduleDay :=
  {| date := date day; bosses := bosses day; raidHours := raidHours day;
     bonuses := bonuses day ++ notesOfDay notes day |}.

(** ** The backup array *)

(** An entry the fallback passes over: another event, or no extra data. *)
Definition passedOver (id : string) (entry : BackupEntry) : Prop :=
  eventID entry <> id \/ extraData entry = None.

(** A backup with an entry of another event, the entry of the event with
    flattened extra data, and an entry without extra data. *)
Definition sampleSchedule : json :=
  JArray [JObject [("date", JString "Friday, February 27"); ("bosses", JArray [])]].

Definition sampleBackup : list BackupEntry :=
  [mkBackup "community-day" (Some [("raidbattles", JArray [])]);
   mkBackup "unova" (Some [("generic", JObject [("hasSpawns", JBool true)]);
                           ("raidSchedule", sampleSchedule)]);
   mkBackup "unova" None].

(** ** Sections by heading level *)

(** The level of a heading element. *)
Definition headingLevel (e : element) : option nat :=
  if has_tag "H1" e then Some 1
  else if has_tag "H2" e then Some 2
  else if has_tag "H3" e then Some 3
  else if has_tag "H4" e then Some 4
  else if has_tag "H5" e then Some 5
  else if has_tag "H6" e then Some 6
  else None.

(** The collection as the specification words it: the siblings up to the
    next heading of the same or a higher level. *)
Fixpoint collect_until_level (level : nat) (siblings : list element) : list element :=
  match siblings with
  | [] => []
  | current :: rest =>
      match headingLevel current with
      | Some l => if l <=? level then [] else current :: collect_until_level level rest
      | None => current :: collect_until_level level rest
      end
  end.

Definition collectAsSpecified (start : cursor) : list element :=
  match headingLevel (node start) with
  | Some level => collect_until_level level (following start)
  | None => following start
  end.

(** An H2 heading followed by a paragraph, an H1 heading, a paragraph and
    the next H2 heading. *)
Definition raidsHeading : cursor :=
  mkCursor (h2 "raids" "Raids")
           [p "Featured raids"; h1 "Other news"; p "Unrelated"; h2 "" "Bonuses"].

(** ** The updates of the record *)

(** A raid hour time as the scraper builds it: the clock range found in the
    text, followed by " local time". *)
Definition localTime (t : string) : Prop :=
  exists clock, t = String.append clock " local time".

(** A property of times holds of a time that may be null. *)
Definition optionalTime (T : string -> Prop) (t : option string) : Prop :=
  match t with
  | Some t => T t
  | None => True
  end.

(** The six ways the scraper changes the record: a day is appended for a
    date the schedule does not have, the bosses parsed from a list are added
    to a day or to the static list, a window selected from the bosses of a
    day is pushed to that day, a raid hour pass runs over the days, a note is
    distributed to the days. [T] is what is known of the times of the
    windows. *)
Inductive update (T : string -> Prop) : EventData -> EventData -> Prop :=
| update_new_day d ed :
    findDateIndex d (raidSchedule ed) = None ->
    update T ed {| raidSchedule := raidSchedule ed ++ [newDay d];
                 raidbattles := raidbattles ed |}
| update_day_bosses i pokemonList rt ed :
    update T ed (addBossesToDay i (parseBossesFromList pokemonList rt) ed)
| update_static_bosses pokemonList rt ed :
    update T ed (addBossesToRaidbattles (parseBossesFromList pokemonList rt) ed)
| update_window i t select day ed :
    raidSchedule ed !! i = Some day ->
    T t ->
    List.filter select (bosses day) <> [] ->
    update T ed (updateDay i (pushRaidHour (mkRaidHour t (List.filter select (bosses day)))) ed)
| update_pass t select ed :
    T t ->
    update T ed {| raidSchedule := map (attachRaidHour t select) (raidSchedule ed);
                 raidbattles := raidbattles ed |}
| update_note note ed :
    update T ed (distributeNote ed note).

(** A record reached from another by updates. *)
Definition evolves (T : string -> Prop) : EventData -> EventData -> Prop :=
  rtc (update T).

(** [l'] is [l] with elements appended. *)
Definition extends {A : Type} (l l' : list A) : Prop := exists more, l' = l ++ more.

Definition dayGrows (day day' : ScheduleDay) : Prop :=
  date day' = date day
  /\ extends (bosses day) (bosses day')
  /\ extends (raidHours day) (raidHours day')
  /\ extends (bonuses day) (bonuses day').

(** Every day of [ed] is a day of [ed'], at the same place and with the same
    date, with bosses, raid hours and bonuses appended at most; the static
    list is extended. *)
Definition grows (ed ed' : EventData) : Prop :=
  (forall i day, raidSchedule ed !! i = Some day ->
                 exists day', raidSchedule ed' !! i = Some day' /\ dayGrows day day')
  /\ extends (raidbattles ed) (raidbattles ed').

Definition uniqueDates (ed : EventData) : Prop := List.NoDup (map date (raidSchedule ed)).



(** ** Roster items *)

(** A list item has a name element and an image, as [parseBossFromElement]
    asks: a child of class [pkmn-name], and an [img] child of a child of
    class [pkmn-list-img]. *)
Definition hasNameAndImage (item : element) : bool :=
  existsb (has_class "pkmn-name") (children item)
  && existsb (fun wrapper => has_class "pkmn-list-img" wrapper
                             && existsb (has_tag "IMG") (children wrapper))
             (children item).

(** The entries of the backup array the fallback reads for an event. *)
Definition matchingEntries (id : string) (bkp : list BackupEntry) : list BackupEntry :=
  List.filter (fun entry => match extraData entry with
                            | Some _ => String.eqb (eventID entry) id
                            | None => false
                            end) bkp.

(** ** The global information *)

(** The section ids [get] passes to [processRaidsSection]. *)
Definition anchorId (sectionId : string) : Prop :=
  sectionId = "raids" \/ sectionId = "appearing-in-5-star-raids".

(** The keywords [processRaidsSection] records. *)
Definition raidHourKeywords : list string := ["five-star"; "shadow"; "mega"; "primal"].

(** What holds of the global information all along: the raid hour time, if
    any, is a local time and came with a section id; the section id is one
    of the anchors; the keywords are distinct and among the four the scraper
    looks for; the notes are longer than 10 characters. *)
Definition infoWellFormed (gi : GlobalInfo) : Prop :=
  optionalTime localTime (raidHourTime gi)
  /\ (raidHourTime gi <> None -> raidHourSectionId gi <> None)
  /\ (forall sectionId, raidHourSectionId gi = Some sectionId -> anchorId sectionId)
  /\ List.NoDup (raidTypesWithRaidHour gi)
  /\ incl (raidTypesWithRaidHour gi) raidHourKeywords
  /\ Forall (fun note => 10 < String.length note) (specialNotes gi).

(** ** The entry of a day section *)

(** [ed'] is [ed] but for the bosses of the entry [i]. *)
Definition sameButBosses (i : nat) (ed ed' : EventData) : Prop :=
  raidbattles ed' = raidbattles ed
  /\ length (raidSchedule ed') = length (raidSchedule ed)
  /\ (forall j, j <> i -> raidSchedule ed' !! j = raidSchedule ed !! j)
  /\ (forall day, raidSchedule ed !! i = Some day ->
                  exists day', raidSchedule ed' !! i = Some day'
                               /\ date day' = date day
                               /\ raidHours day' = raidHours day
                               /\ bonuses day' = bonuses day).

(** ** Pages without raid sections *)

(** A page with a heading and a list of bosses, but no raid section. *)
Definition bonusesPage : element := pageContent [
  h2 "bonuses" "Bonuses";
  h3 "Five-Star Raids";
  pokemonList [pokemon true "Kyurem" "kyurem.png"];
  p "Raid Hour featuring Kyurem from 6:00 p.m. to 7:00 p.m. local time."
].

(** ** The record as JSON, and the final form of the test harness *)

(** [JSON.parse(JSON.stringify(x))] for the objects of the event record. *)
Definition bossJson (boss : Boss) : json :=
  JObject [("name", JString (name boss));
           ("image", JString (image boss));
           ("canBeShiny", JBool (canBeShiny boss));
           ("raidType", match raidType boss with
                        | Some t => JString t
                        | None => JNull
                        end)].

Definition raidHourJson (w : RaidHourWindow) : json :=
  JObject [("time", JString (time w)); ("bosses", JArray (map bossJson (rh_bosses w)))].

Definition dayJson (day : ScheduleDay) : json :=
  JObject [("date", JString (date day));
           ("bosses", JArray (map bossJson (bosses day)));
           ("raidHours", JArray (map raidHourJson (raidHours day)));
           ("bonuses", JArray (map JString (bonuses day)))].

Definition eventDataJson (ed : EventData) : json :=
  JObject [("raidSchedule", JArray (map dayJson (raidSchedule ed)));
           ("raidbattles", JArray (map bossJson (raidbattles ed)))].

(** The data of a record as the file holds it. *)
Definition recordDataJson (data : RecordData) : json :=
  match data with
  | Extracted ed => eventDataJson ed
  | Recovered fallbackData => fallbackData
  end.

(** A JSON number literal denotes zero: the digits before the exponent are
    all 0. *)
Fixpoint zeroMantissa (l : list ascii) : bool :=
  match l with
  | [] => true
  | c :: l' =>
      if Ascii.eqb c "e" || Ascii.eqb c "E" then true
      else if is_digit c then Ascii.eqb c "0" && zeroMantissa l'
      else zeroMantissa l'
  end.

(** JavaScript truthiness of a parsed JSON value. *)
Definition jsonTruthy (v : json) : bool :=
  match v with
  | JNull => false
  | JBool b => b
  | JNumber literal => negb (zeroMantissa (chars literal))
  | JString s => negb (String.eqb s "")
  | JArray _ | JObject _ => true
  end.

(** [v.key] for a value that is not null: the field of an object, undefined
    for the other values. *)
Definition propertyOf (key : string) (v : json) : option json :=
  match v with
  | JObject fields => getKey key fields
  | _ => None
  end.

(** [if (data.data.key) mockEvent.extraData.key = data.data.key] *)
Definition copyIfTruthy (key : string) (data : json) : list (string * json) :=
  match propertyOf key data with
  | Some v => if jsonTruthy v then [(key, v)] else []
  | None => []
  end.

(** The [extraData] of the final form the test harness builds from the type
    and the data of a temporary file ("Simulate combinedetails.js logic");
    [None] when the data is null, whose properties cannot be read. *)
Definition finalExtraData (type : string) (data : json) : option (list (string * json)) :=
  if String.eqb type "event" then
    match data with
    | JNull => None
    | _ => Some (copyIfTruthy "raidSchedule" data ++ copyIfTruthy "raidbattles" data)
    end
  else if String.eqb type "raid-battles" then Some [("raidbattles", data)]
  else if String.eqb type "pokemon-spotlight-hour" then Some [("spotlight", data)]
  else if String.eqb type "community-day" then Some [("communityday", data)]
  else if String.eqb type "research-breakthrough" then Some [("breakthrough", data)]
  else Some [].

(** * Properties *)

(** ** The model on the phrasings the source names in its comments *)

Example header_type_and_date :
  parseRaidHeader "Five-Star Shadow Raids: Monday, November 10" None
  = Some {| h_raidType := "Five-Star Shadow Raids"; h_date := "Monday, November 10" |}.
Proof. vm_compute. reflexivity. Qed.

Example header_date_only :
  parseRaidHeader "Tuesday, November 19" (Some "Five-Star Raids")
  = Some {| h_raidType := "Five-Star Raids"; h_date := "Tuesday, November 19" |}
  /\ parseRaidHeader "Tuesday, November 19" None = None.
Proof. vm_compute. split; reflexivity. Qed.

Example header_day_in_parentheses :
  parseRaidHeader "Appearing in 3-Star Raids (Sunday)" None
  = Some {| h_raidType := "3-Star Raids"; h_date := "Sunday" |}
  /\ parseRaidHeader "Appearing in 3-Star Raids" None = None.
Proof. vm_compute. split; reflexivity. Qed.

Example context_of_headings :
  updateContext "Appearing in 3-Star Raids" None = Some "3-Star Raids"
  /\ updateContext "Five-Star Shadow Raids" None = Some "Five-Star Shadow Raids"
  /\ updateContext "Shadow Raids" (Some "Mega Raids") = Some "Shadow Raids"
  /\ updateContext "Bonuses" (Some "Mega Raids") = Some "Mega Raids".
Proof. vm_compute. repeat split; reflexivity. Qed.

Example featured_names :
  match exec true featuringRegex
          "Raid Hour featuring Zekrom, Kyurem and Reshiram from 6:00 p.m. to 7:00 p.m." with
  | Some m => map trim (split false nameSeparator (group m 1))
  | None => []
  end = ["Zekrom"; "Kyurem"; "Reshiram"].
Proof. vm_compute. reflexivity. Qed.

Example name_without_parenthetical :
  remove_first false parenthetical "Kyurem (Black)" = "Kyurem".
Proof. vm_compute. reflexivity. Qed.

(** The entry [findOrCreateDay] returns is an entry of the schedule, with the
    date asked for: the index stands for the reference the source holds. *)
Lemma findDateIndex_lookup d schedule i :
  findDateIndex d schedule = Some i ->
  exists day, schedule !! i = Some day /\ date day = d.
Proof.
  revert i. induction schedule as [|entry schedule IH]; intros i; simpl; [discriminate|].
  destruct (String.eqb_spec (date entry) d) as [Hd|_].
  - intros [= <-]. now exists entry.
  - destruct (findDateIndex d schedule) as [j|]; [|discriminate].
    intros [= <-]. apply IH. reflexivity.
Qed.

Lemma findOrCreateDay_lookup d ed :
  exists day,
    raidSchedule (fst (findOrCreateDay d ed)) !! snd (findOrCreateDay d ed) = Some day
    /\ date day = d.
Proof.
  unfold findOrCreateDay.
  destruct (findDateIndex d (raidSchedule ed)) as [i|] eqn:E; simpl.
  - now apply findDateIndex_lookup.
  - exists (newDay d). split; [|reflexivity].
    rewrite lookup_app_r by reflexivity. now rewrite Nat.sub_diag.
Qed.

(** ** What every step of the extraction preserves

    The schedule is only changed by four updates: a new day is appended,
    parsed bosses are added to a day or to the static list, and a raid hour
    window selected from the bosses of a day is pushed to that day. A
    property of days and of the static list that these updates keep holds
    in every state of the traversal and after the raid hour passes. *)

Section Preservation.

Variable dayP : ScheduleDay -> Prop.
Variable staticP : list Boss -> Prop.

Hypothesis P_new : forall d, dayP (newDay d).
Hypothesis P_bosses : forall day pokemonList rt,
    dayP day ->
    dayP (setBosses (addBossesToList (bosses day) (parseBossesFromList pokemonList rt)) day).
Hypothesis P_window : forall day t select,
    dayP day ->
    dayP (pushRaidHour (mkRaidHour t (List.filter select (bosses day))) day).
Hypothesis P_static_nil : staticP [].
Hypothesis P_static : forall l pokemonList rt,
    staticP l -> staticP (addBossesToList l (parseBossesFromList pokemonList rt)).

Local Abbreviation inv := (holds dayP staticP).

Lemma holds_empty : inv emptyEventData.
Proof. split; [constructor | exact P_static_nil]. Qed.

Lemma findOrCreateDay_holds d ed :
  inv ed -> inv (fst (findOrCreateDay d ed)).
Proof.
  intros [Hdays Hstatic]. unfold findOrCreateDay.
  destruct (findDateIndex d (raidSchedule ed)); simpl.
  - now split.
  - split; [|assumption]. apply Forall_app. split; [assumption|].
    constructor; [apply P_new | constructor].
Qed.

Lemma updateDay_holds i f ed :
  (forall day, dayP day -> dayP (f day)) -> inv ed -> inv (updateDay i f ed).
Proof.
  intros Hf [Hdays Hstatic]. split; [|assumption]. simpl.
  apply Forall_alter; [assumption|]. intros day _. apply Hf.
Qed.

Lemma addBossesToDay_holds i pokemonList rt ed :
  inv ed -> inv (addBossesToDay i (parseBossesFromList pokemonList rt) ed).
Proof. intros H. apply updateDay_holds; [|assumption]. intros day. apply P_bosses. Qed.

Lemma addBossesToRaidbattles_holds pokemonList rt ed :
  inv ed -> inv (addBossesToRaidbattles (parseBossesFromList pokemonList rt) ed).
Proof. intros [Hdays Hstatic]. split; [assumption|]. simpl. now apply P_static. Qed.

Lemma dayStep_holds i st element :
  inv (snd st) -> inv (snd (dayStep i st element)).
Proof.
  intros H. unfold dayStep, dayPokemonList. simpl.
  destruct (_ && _); [now apply addBossesToDay_holds | assumption].
Qed.

Lemma dayLoop_holds i elements st :
  inv (snd st) -> inv (snd (fold_left (dayStep i) elements st)).
Proof.
  revert st. induction elements as [|element elements IH]; intros st H; simpl.
  - assumption.
  - apply IH. now apply dayStep_holds.
Qed.

Lemma dayRaidHourEntry_holds i v ed :
  inv ed -> inv (dayRaidHourEntry i v ed).
Proof.
  intros H. unfold dayRaidHourEntry.
  destruct (_ && _); [|assumption].
  destruct (d_raidHourTime v) as [t|]; [|assumption].
  destruct (raidSchedule ed !! i) as [day|] eqn:Hday; [|assumption].
  destruct (0 <? _); [|assumption].
  destruct H as [Hdays Hstatic]. split; [|assumption]. simpl.
  apply Forall_alter; [assumption|].
  intros day' Hday'. rewrite Hday in Hday'. injection Hday' as <-.
  apply P_window.
Qed.

Lemma processDayRaidSection_holds elements dayHeader ed gi :
  inv ed -> inv (processDayRaidSection elements dayHeader ed gi).
Proof.
  intros H. unfold processDayRaidSection.
  pose proof (findOrCreateDay_holds (trim (before_sep ":" dayHeader)) ed H) as H0.
  destruct (findOrCreateDay _ ed) as [ed0 i]. simpl in H0.
  pose proof (dayLoop_holds i elements (mkDayVars None None [] false, ed0) H0) as H1.
  destruct (fold_left _ elements _) as [v ed1]. simpl in H1.
  now apply dayRaidHourEntry_holds.
Qed.

Lemma sectionStep_holds sectionId st element :
  inv (snd (fst st)) -> inv (snd (fst (sectionStep sectionId st element))).
Proof.
  destruct st as [[v ed] gi]. cbn [fst snd]. intros H.
  unfold sectionStep.
  assert (H1 : inv (snd (sectionHeading element (v, ed)))).
  { unfold sectionHeading. destruct (_ && _); [|assumption].
    destruct (parseRaidHeader _ _) as [parsed|]; [|assumption].
    pose proof (findOrCreateDay_holds (h_date parsed) ed H) as H0.
    destruct (findOrCreateDay _ ed) as [ed' entry]. exact H0. }
  destruct (sectionHeading element (v, ed)) as [v1 ed1]. cbn [fst snd] in *.
  unfold sectionPokemonList.
  destruct (String.eqb (className element) "pkmn-list-flex"); [|assumption].
  destruct (currentDateEntry v1) as [entry|].
  - destruct (truthy _).
    + now apply addBossesToDay_holds.
    + now apply addBossesToRaidbattles_holds.
  - now apply addBossesToRaidbattles_holds.
Qed.

Lemma sectionLoop_holds sectionId elements st :
  inv (snd (fst st)) ->
  inv (snd (fst (fold_left (sectionStep sectionId) elements st))).
Proof.
  revert st. induction elements as [|element elements IH]; intros st H; simpl.
  - assumption.
  - apply IH. now apply sectionStep_holds.
Qed.

Lemma traverseRaidsSection_holds elements sectionId ed gi :
  inv ed -> inv (fst (traverseRaidsSection elements sectionId ed gi)).
Proof.
  intros H. unfold traverseRaidsSection.
  pose proof (sectionLoop_holds sectionId elements
                (initialSectionVars sectionId, ed, gi) H) as H1.
  destruct (fold_left _ elements _) as [[v ed'] gi']. exact H1.
Qed.

Lemma attachRaidHour_keeps t select day :
  dayP day -> dayP (attachRaidHour t select day).
Proof.
  intros H. unfold attachRaidHour.
  destruct (raidHours day); [|assumption].
  destruct (0 <? _); [apply P_window|]; assumption.
Qed.

Lemma attachRaidHours_holds t select ed :
  inv ed ->
  inv {| raidSchedule := map (attachRaidHour t select) (raidSchedule ed);
           raidbattles := raidbattles ed |}.
Proof.
  intros [Hdays Hstatic]. split; [|assumption]. simpl.
  apply Forall_map. eapply Forall_impl; [exact Hdays|].
  intros day. apply attachRaidHour_keeps.
Qed.

Lemma createRaidHourEntries_holds gi ed :
  inv ed -> inv (createRaidHourEntries gi ed).
Proof.
  intros H. unfold createRaidHourEntries.
  destruct (raidHourTime gi); [|assumption].
  destruct (truthy _); [now apply attachRaidHours_holds | assumption].
Qed.

Lemma processRaidsSection_holds elements sectionId ed gi :
  inv ed -> inv (fst (processRaidsSection elements sectionId ed gi)).
Proof.
  intros H. unfold processRaidsSection.
  pose proof (traverseRaidsSection_holds elements sectionId ed gi H) as H1.
  destruct (traverseRaidsSection _ _ _ _) as [ed' gi']. simpl in *.
  now apply createRaidHourEntries_holds.
Qed.

Lemma processAnchor_holds pageContent sectionId st :
  inv (fst st) -> inv (fst (processAnchor pageContent sectionId st)).
Proof.
  intros H. unfold processAnchor.
  destruct (querySelector _ _); [now apply processRaidsSection_holds | assumption].
Qed.

Lemma dayHeadings_holds gi h2s ed :
  inv ed -> inv (fold_left (processDayHeading gi) h2s ed).
Proof.
  revert ed. induction h2s as [|h2 h2s IH]; intros ed H; simpl.
  - assumption.
  - apply IH. unfold processDayHeading.
    destruct (test _ _ _); [now apply processDayRaidSection_holds | assumption].
Qed.

Lemma traversePage_holds pageContent :
  inv (fst (traversePage pageContent)).
Proof.
  unfold traversePage. simpl. apply dayHeadings_holds.
  do 2 apply processAnchor_holds. apply holds_empty.
Qed.

Lemma distributeFiveStarRaidHour_holds gi ed :
  inv ed -> inv (distributeFiveStarRaidHour gi ed).
Proof.
  intros H. unfold distributeFiveStarRaidHour.
  destruct (raidHourTime gi); [|assumption].
  destruct (raidHourSectionId gi); [|assumption].
  destruct (_ && _); [now apply attachRaidHours_holds | assumption].
Qed.

Hypothesis P_bonus : forall day note, dayP day -> dayP (pushBonus note day).

Lemma distributeBonuses_holds gi ed :
  inv ed -> inv (distributeBonuses gi ed).
Proof.
  unfold distributeBonuses. revert ed.
  induction (specialNotes gi) as [|note notes IH]; intros ed H; simpl.
  - assumption.
  - apply IH. destruct H as [Hdays Hstatic]. split; [|assumption]. simpl.
    apply Forall_map. eapply Forall_impl; [exact Hdays|].
    intros day Hday. unfold attachBonus.
    destruct (existsb _ _); [now apply P_bonus | assumption].
Qed.

Lemma extractEventData_holds pageContent :
  inv (extractEventData pageContent).
Proof.
  unfold extractEventData.
  pose proof (traversePage_holds pageContent) as H.
  destruct (traversePage pageContent) as [ed gi]. simpl in H.
  now apply distributeBonuses_holds, distributeFiveStarRaidHour_holds.
Qed.

End Preservation.

(** ** Facts about the updates *)

Lemma hasBossNamed_In n l :
  hasBossNamed n l = true <-> In n (map name l).
Proof.
  unfold hasBossNamed. induction l as [|b l IH]; simpl.
  - split; [discriminate | tauto].
  - rewrite orb_true_iff, IH, String.eqb_eq. tauto.
Qed.

Lemma uniqueNames_snoc l b :
  List.NoDup (map name l) -> ~ In (name b) (map name l) ->
  List.NoDup (map name (l ++ [b])).
Proof.
  induction l as [|a l IH]; simpl; intros Hnd Hin.
  - constructor; [tauto | constructor].
  - inversion Hnd as [|? ? Ha Hl]; subst. constructor.
    + rewrite map_app, in_app_iff. simpl. intros [H|[H|[]]]; [tauto|].
      apply Hin. left. now symmetry.
    + apply IH; [assumption | tauto].
Qed.

Lemma pushBossIfNew_unique l b :
  List.NoDup (map name l) -> List.NoDup (map name (pushBossIfNew l b)).
Proof.
  intros H. unfold pushBossIfNew.
  destruct (hasBossNamed (name b) l) eqn:E; simpl; [assumption|].
  apply uniqueNames_snoc; [assumption|].
  rewrite <- hasBossNamed_In, E. discriminate.
Qed.

Lemma addBossesToList_unique l found :
  List.NoDup (map name l) -> List.NoDup (map name (addBossesToList l found)).
Proof.
  unfold addBossesToList. revert l.
  induction found as [|b found IH]; intros l H; simpl; [assumption|].
  apply IH. now apply pushBossIfNew_unique.
Qed.

Lemma addBossesToList_Forall (P : Boss -> Prop) l found :
  Forall P l -> Forall P found -> Forall P (addBossesToList l found).
Proof.
  unfold addBossesToList. revert l.
  induction found as [|b found IH]; intros l Hl Hf; simpl; [assumption|].
  inversion Hf; subst. apply IH; [|assumption].
  unfold pushBossIfNew. destruct (negb _); [|assumption].
  apply Forall_app. split; [assumption | now constructor].
Qed.

Lemma addBossesToList_incl l found : incl l (addBossesToList l found).
Proof.
  unfold addBossesToList. revert l.
  induction found as [|b found IH]; intros l; simpl; [apply incl_refl|].
  eapply incl_tran; [|apply IH].
  unfold pushBossIfNew. destruct (negb _); [apply incl_appl|]; apply incl_refl.
Qed.

(** ** The tier labels *)

Lemma getTierFromRaidType_closed rt : isTierOrNull (getTierFromRaidType rt).
Proof.
  unfold getTierFromRaidType.
  destruct (negb (truthy rt)); [exact I|].
  destruct rt as [s|]; [|exact I].
  repeat match goal with
         | |- isTierOrNull (if ?c then _ else _) => destruct c
         end; simpl; tauto.
Qed.

Lemma parseBossFromElement_tier bossElement rt boss :
  parseBossFromElement bossElement rt = Some boss ->
  raidType boss = getTierFromRaidType rt.
Proof.
  unfold parseBossFromElement.
  destruct (List.find (has_class "pkmn-name") _); [|discriminate].
  destruct (List.find (has_tag "IMG") _); [|discriminate].
  intros [= <-]. reflexivity.
Qed.

Lemma parseBossesFromList_tiers pokemonList rt :
  Forall (fun boss => isTierOrNull (raidType boss)) (parseBossesFromList pokemonList rt).
Proof.
  unfold parseBossesFromList. apply Forall_forall. intros boss Hin.
  apply list_elem_of_omap in Hin. destruct Hin as (el & _ & Hel).
  rewrite (parseBossFromElement_tier _ _ _ Hel). apply getTierFromRaidType_closed.
Qed.

(** The records written by the fallback carry recovered data only, so a
    record with extracted data was produced from a page. *)
Lemma fallback_recovered id bkp rec :
  In rec (written (fallback id bkp)) -> exists data, out_data rec = Recovered data.
Proof.
  induction bkp as [|entry bkp IH]; simpl; [tauto|].
  destruct (extraData entry) as [extra|]; [|assumption].
  destruct (String.eqb (eventID entry) id); [|assumption].
  destruct (keyCount _) as [n|]; simpl; [|tauto].
  destruct (0 <? n); simpl; [|assumption].
  intros [<-|H]; [eexists; reflexivity | auto].
Qed.

Lemma get_extracted dom id bkp rec ed :
  In rec (written (get dom id bkp)) -> out_data rec = Extracted ed ->
  exists pageContent, ed = extractEventData pageContent.
Proof.
  unfold get. intros Hin Hdata.
  assert (Hfb : In rec (written (fallback id bkp)) ->
                exists pageContent, ed = extractEventData pageContent).
  { intros H. apply fallback_recovered in H as [data H]. congruence. }
  destruct dom as [root|]; [|auto].
  destruct (querySelector _ root) as [pageContent|]; [|auto].
  simpl in Hin. destruct Hin as [<-|[]]. simpl in Hdata.
  injection Hdata as <-. eexists; reflexivity.
Qed.

(** ** The invariants of the extracted record *)

Lemma extractEventData_unique pageContent :
  holds (fun day => uniqueBossNames (bosses day)) uniqueBossNames
        (extractEventData pageContent).
Proof.
  apply extractEventData_holds; unfold uniqueBossNames; simpl; intros.
  - constructor.
  - now apply addBossesToList_unique.
  - assumption.
  - constructor.
  - now apply addBossesToList_unique.
  - assumption.
Qed.

(** The updates keep the tier labels closed: new days and windows add no
    boss, and parsed bosses carry a label of [getTierFromRaidType]. *)
Ltac tier_updates :=
  unfold parsedTiers, tiersClosed; simpl; intros;
  first [ assumption
        | solve [constructor]
        | apply addBossesToList_Forall; [assumption | apply parseBossesFromList_tiers] ].

Lemma traverseRaidsSection_tiers elements sectionId ed gi :
  parsedTiers ed -> parsedTiers (fst (traverseRaidsSection elements sectionId ed gi)).
Proof. apply traverseRaidsSection_holds; tier_updates. Qed.

Lemma processRaidsSection_tiers elements sectionId ed gi :
  parsedTiers ed -> parsedTiers (fst (processRaidsSection elements sectionId ed gi)).
Proof. apply processRaidsSection_holds; tier_updates. Qed.

Lemma extractEventData_tiers pageContent : parsedTiers (extractEventData pageContent).
Proof. apply extractEventData_holds; tier_updates. Qed.

Lemma extractEventData_windows pageContent :
  holds windowsWithinDay (fun _ => True) (extractEventData pageContent).
Proof.
  apply extractEventData_holds; unfold windowsWithinDay; simpl; intros; try exact I.
  - constructor.
  - eapply Forall_impl; [eassumption|]. intros w Hw. simpl in Hw.
    eapply incl_tran; [exact Hw | apply addBossesToList_incl].
  - apply Forall_app. split; [assumption|].
    constructor; [|constructor]. simpl. apply incl_filter.
  - assumption.
Qed.

Example unovaPage_extracted : extractEventData unovaPage = unovaData.
Proof. vm_compute. reflexivity. Qed.

(** ** C6: boss names are unique *)

(** C6. In the record [get] writes from a page, no two bosses of
    [raidbattles] share a name and no two bosses of a day share a name;
    the one way bosses are inserted, [pushBossIfNew], appends a boss only
    when no boss of the list has its name, and so keeps names unique. *)
Theorem C6_boss_names_unique :
  (forall dom id bkp rec ed,
      In rec (written (get dom id bkp)) -> out_data rec = Extracted ed ->
      List.NoDup (map name (raidbattles ed)) /\
      forall day, In day (raidSchedule ed) -> List.NoDup (map name (bosses day)))
  /\ (forall l boss,
         (pushBossIfNew l boss = l /\ In (name boss) (map name l)) \/
         (pushBossIfNew l boss = l ++ [boss] /\ ~ In (name boss) (map name l)))
  /\ (forall l found,
         List.NoDup (map name l) -> List.NoDup (map name (addBossesToList l found))).
Proof.
  split; [|split].
  - intros dom id bkp rec ed Hin Hdata.
    destruct (get_extracted _ _ _ _ _ Hin Hdata) as [pageContent ->].
    destruct (extractEventData_unique pageContent) as [Hdays Hstatic].
    split; [exact Hstatic|]. intros day Hday.
    rewrite Forall_forall in Hdays. apply Hdays, list_elem_of_In, Hday.
  - intros l boss. unfold pushBossIfNew.
    destruct (hasBossNamed (name boss) l) eqn:E; simpl.
    + left. split; [reflexivity|]. now apply hasBossNamed_In.
    + right. split; [reflexivity|]. rewrite <- hasBossNamed_In, E. discriminate.
  - intros l found. apply addBossesToList_unique.
Qed.

Lemma C6_boss_names_unique_witness :
  List.NoDup (map name (raidbattles unovaData)) /\
  forall day, In day (raidSchedule unovaData) -> List.NoDup (map name (bosses day)).
Proof.
  apply (proj1 C6_boss_names_unique (Some unovaDocument) "unova" [] unovaRecord unovaData).
  - vm_compute. left. reflexivity.
  - reflexivity.
Defined.

(** ** C5: raid hour windows hold bosses of their own day *)

(** C5. In the record [get] writes from a page, every boss of every raid
    hour window of a day is a boss of that same day. *)
Theorem C5_raid_hour_bosses_within_day :
  forall dom id bkp rec ed day w boss,
    In rec (written (get dom id bkp)) -> out_data rec = Extracted ed ->
    In day (raidSchedule ed) -> In w (raidHours day) -> In boss (rh_bosses w) ->
    In boss (bosses day).
Proof.
  intros dom id bkp rec ed day w boss Hin Hdata Hday Hw Hboss.
  destruct (get_extracted _ _ _ _ _ Hin Hdata) as [pageContent ->].
  destruct (extractEventData_windows pageContent) as [Hdays _].
  rewrite Forall_forall in Hdays.
  specialize (Hdays day (proj2 (list_elem_of_In _ _) Hday)).
  unfold windowsWithinDay in Hdays. rewrite Forall_forall in Hdays.
  exact (Hdays w (proj2 (list_elem_of_In _ _) Hw) boss Hboss).
Qed.

Lemma C5_raid_hour_bosses_within_day_witness : In zekrom (bosses unovaDay).
Proof.
  apply (C5_raid_hour_bosses_within_day (Some unovaDocument) "unova" [] unovaRecord
           unovaData unovaDay unovaWindow zekrom).
  - vm_compute. left. reflexivity.
  - reflexivity.
  - left. reflexivity.
  - left. reflexivity.
  - right. left. reflexivity.
Defined.

(** ** C7: the tier classifier *)

(** C7. [getTierFromRaidType] gives, for every string or null, exactly one
    value, which is one of the seven tier labels or null; so in the record
    [get] writes from a page the [raidType] of every boss (static, of a day,
    of a raid hour window) is a tier label or null; a phrase with both
    "shadow" and "star" never maps to "Shadow", a shadow phrase that names a
    star tier maps to that tier (the first in the order one, three, five,
    six), and "Five-Star Shadow Raids" maps to "Tier 5". *)
Theorem C7_tier_classifier_closed :
  (forall rt, exists! t, getTierFromRaidType rt = t /\ isTierOrNull t)
  /\ (forall dom id bkp rec ed,
         In rec (written (get dom id bkp)) -> out_data rec = Extracted ed ->
         (forall boss, In boss (raidbattles ed) -> isTierOrNull (raidType boss)) /\
         (forall day boss, In day (raidSchedule ed) ->
             In boss (bosses day) \/ (exists w, In w (raidHours day) /\ In boss (rh_bosses w)) ->
             isTierOrNull (raidType boss)))
  /\ (forall s,
         includes (toLowerCase s) "shadow" = true ->
         includes (toLowerCase s) "star" = true ->
         getTierFromRaidType (Some s) <> Some "Shadow")
  /\ (forall s,
         let lower := toLowerCase s in
         let one := includes lower "one-star" || includes lower "1-star" in
         let three := includes lower "three-star" || includes lower "3-star" in
         let five := includes lower "five-star" || includes lower "5-star" in
         let six := includes lower "six-star" || includes lower "6-star" in
         includes lower "shadow" = true ->
         (one = true -> getTierFromRaidType (Some s) = Some "Tier 1")
         /\ (one = false -> three = true -> getTierFromRaidType (Some s) = Some "Tier 3")
         /\ (one = false -> three = false -> five = true ->
             getTierFromRaidType (Some s) = Some "Tier 5")
         /\ (one = false -> three = false -> five = false -> six = true ->
             getTierFromRaidType (Some s) = Some "Tier 6"))
  /\ getTierFromRaidType (Some "Five-Star Shadow Raids") = Some "Tier 5".
Proof.
  split; [|split; [|split; [|split]]].
  - intros rt. exists (getTierFromRaidType rt). split.
    + split; [reflexivity | apply getTierFromRaidType_closed].
    + now intros t [<- _].
  - intros dom id bkp rec ed Hin Hdata.
    destruct (get_extracted _ _ _ _ _ Hin Hdata) as [pageContent ->].
    destruct (extractEventData_tiers pageContent) as [Hdays Hstatic].
    destruct (extractEventData_windows pageContent) as [Hwin _].
    unfold tiersClosed in *.
    rewrite Forall_forall in Hdays. rewrite Forall_forall in Hstatic.
    rewrite Forall_forall in Hwin.
    split.
    + intros boss Hboss. apply Hstatic, list_elem_of_In, Hboss.
    + intros day boss Hday Hboss.
      apply list_elem_of_In in Hday.
      specialize (Hdays day Hday). specialize (Hwin day Hday).
      rewrite Forall_forall in Hdays.
      unfold windowsWithinDay in Hwin. rewrite Forall_forall in Hwin.
      destruct Hboss as [Hboss|(w & Hw & Hboss)].
      * apply Hdays, list_elem_of_In, Hboss.
      * apply Hdays, list_elem_of_In, (Hwin w); [apply list_elem_of_In, Hw | exact Hboss].
  - intros s Hshadow Hstar. unfold getTierFromRaidType.
    destruct (negb (truthy (Some s))); [discriminate|].
    rewrite Hstar. cbn [negb]. rewrite andb_false_r.
    repeat match goal with
           | |- (if ?c then _ else _) <> _ => destruct c
           end; discriminate.
  - intros s lower one three five six Hshadow. unfold getTierFromRaidType.
    assert (Hs : truthy (Some s) = true).
    { destruct s; [discriminate Hshadow | reflexivity]. }
    rewrite Hs. cbn [negb]. cbv iota. fold lower. fold one three five six.
    repeat split; intros; repeat match goal with H : _ = _ :> bool |- _ => rewrite H end;
      reflexivity.
  - vm_compute. reflexivity.
Qed.

Lemma C7_tier_classifier_closed_witness :
  (forall boss, In boss (raidbattles unovaData) -> isTierOrNull (raidType boss))
  /\ getTierFromRaidType (Some "Shadow Star Raids") <> Some "Shadow"
  /\ getTierFromRaidType (Some "Shadow Five-Star Raids") = Some "Tier 5".
Proof.
  destruct C7_tier_classifier_closed as (_ & Hrecord & Hshadow & Hstar & _).
  split; [|split].
  - apply (Hrecord (Some unovaDocument) "unova" [] unovaRecord unovaData).
    + vm_compute. left. reflexivity.
    + reflexivity.
  - apply Hshadow; reflexivity.
  - apply (Hstar "Shadow Five-Star Raids" eq_refl); reflexivity.
Defined.

(** ** C3: the keyword "five-star" selects no boss *)

Lemma tierLabel_without_five_star label :
  In label tierLabels ->
  includes label "five-star" = false /\ includes (toLowerCase label) "five-star" = false.
Proof.
  unfold tierLabels. simpl.
  intros [<-|[<-|[<-|[<-|[<-|[<-|[<-|[]]]]]]]]; split; reflexivity.
Qed.

Lemma fiveStarKeyword_selects_none boss :
  isTierOrNull (raidType boss) -> matchesRaidHourKeyword ["five-star"] boss = false.
Proof.
  unfold matchesRaidHourKeyword, bossTypeLower. simpl.
  destruct (raidType boss) as [label|]; simpl; [|reflexivity].
  intros H. destruct (negb (label =? "")%string); [|reflexivity].
  rewrite (proj2 (tierLabel_without_five_star label H)). reflexivity.
Qed.

Lemma filter_none {A} (f : A -> bool) l :
  Forall (fun x => f x = false) l -> List.filter f l = [].
Proof.
  induction 1 as [|x l Hx _ IH]; simpl; [reflexivity|]. now rewrite Hx.
Qed.

Lemma map_unchanged {A} (f : A -> A) l :
  Forall (fun x => f x = x) l -> map f l = l.
Proof.
  induction 1 as [|x l Hx _ IH]; simpl; [reflexivity|]. now rewrite Hx, IH.
Qed.

Lemma createRaidHourEntries_five_star_only gi ed :
  parsedTiers ed -> raidTypesWithRaidHour gi = ["five-star"] ->
  createRaidHourEntries gi ed = ed.
Proof.
  intros [Hdays _] Hkw. unfold createRaidHourEntries.
  destruct (raidHourTime gi) as [t|]; [|reflexivity].
  destruct (truthy (Some t)); [|reflexivity].
  rewrite Hkw, map_unchanged; [now destruct ed|].
  eapply Forall_impl; [exact Hdays|]. intros day Hday.
  unfold attachRaidHour. destruct (raidHours day); [|reflexivity].
  rewrite filter_none; [reflexivity|].
  eapply Forall_impl; [exact Hday|]. intros boss. apply fiveStarKeyword_selects_none.
Qed.

(** C3. The [raidType] of a boss the parser produces is a tier label or
    null and never contains "five-star"; so when "five-star" is the only
    keyword recorded, the pass that ends [processRaidsSection] attaches no
    window: the schedule is as the traversal left it. The schedules this
    applies to are those whose bosses carry tier labels, which is the case of
    the empty record and is kept by [processRaidsSection]. *)
Theorem C3_five_star_keyword_attaches_nothing :
  (forall bossElement rt boss label,
      parseBossFromElement bossElement rt = Some boss -> raidType boss = Some label ->
      In label tierLabels /\
      includes label "five-star" = false /\
      includes (toLowerCase label) "five-star" = false)
  /\ (forall gi ed,
         parsedTiers ed -> raidTypesWithRaidHour gi = ["five-star"] ->
         createRaidHourEntries gi ed = ed)
  /\ (forall elements sectionId ed gi,
         parsedTiers ed ->
         raidTypesWithRaidHour (snd (traverseRaidsSection elements sectionId ed gi))
           = ["five-star"] ->
         processRaidsSection elements sectionId ed gi
           = traverseRaidsSection elements sectionId ed gi)
  /\ parsedTiers emptyEventData
  /\ (forall elements sectionId ed gi,
         parsedTiers ed -> parsedTiers (fst (processRaidsSection elements sectionId ed gi))).
Proof.
  split; [|split; [|split; [|split]]].
  - intros bossElement rt boss label Hparse Hlabel.
    assert (Hin : In label tierLabels).
    { pose proof (getTierFromRaidType_closed rt) as H.
      rewrite <- (parseBossFromElement_tier _ _ _ Hparse), Hlabel in H. exact H. }
    split; [exact Hin | now apply tierLabel_without_five_star].
  - intros gi ed. apply createRaidHourEntries_five_star_only.
  - intros elements sectionId ed gi Hed Hkw. unfold processRaidsSection.
    pose proof (traverseRaidsSection_tiers elements sectionId ed gi Hed) as Htr.
    destruct (traverseRaidsSection elements sectionId ed gi) as [ed' gi'].
    simpl in *. now rewrite createRaidHourEntries_five_star_only.
  - split; constructor.
  - intros elements sectionId ed gi. apply processRaidsSection_tiers.
Qed.

Lemma C3_five_star_keyword_attaches_nothing_witness :
  processRaidsSection fiveStarSection "appearing-in-5-star-raids"
                      emptyEventData emptyGlobalInfo
  = traverseRaidsSection fiveStarSection "appearing-in-5-star-raids"
                         emptyEventData emptyGlobalInfo.
Proof.
  apply (proj1 (proj2 (proj2 C3_five_star_keyword_attaches_nothing))).
  - split; constructor.
  - vm_compute. reflexivity.
Defined.

(** ** C4: the raid hour passes leave days with a window alone *)

Lemma lookup_map {A B} (f : A -> B) (l : list A) (i : nat) :
  map f l !! i = option_map f (l !! i).
Proof.
  revert i. induction l as [|x l IH]; intros [|i]; simpl; try reflexivity. apply IH.
Qed.

Lemma attachRaidHour_cases t select day :
  (raidHours day <> [] -> attachRaidHour t select day = day)
  /\ (attachRaidHour t select day <> day ->
      raidHours day = [] /\
      attachRaidHour t select day =
        {| date := date day; bosses := bosses day;
           raidHours := [mkRaidHour t (List.filter select (bosses day))];
           bonuses := bonuses day |}).
Proof.
  unfold attachRaidHour, pushRaidHour.
  destruct (raidHours day) as [|w ws] eqn:E; split.
  - intros H. now contradiction H.
  - destruct (0 <? _); [|intros H; now contradiction H].
    intros _. split; reflexivity.
  - reflexivity.
  - intros H. now contradiction H.
Qed.

Lemma raidHourPass_lookup gi ed i day pass :
  pass = createRaidHourEntries gi \/ pass = distributeFiveStarRaidHour gi ->
  raidSchedule ed !! i = Some day ->
  raidSchedule (pass ed) !! i = Some day \/
  exists t select, raidSchedule (pass ed) !! i = Some (attachRaidHour t select day).
Proof.
  intros [-> | ->] Hday.
  - unfold createRaidHourEntries.
    destruct (raidHourTime gi) as [t|]; [|now left].
    destruct (truthy _); [|now left].
    right. exists t, (matchesRaidHourKeyword (raidTypesWithRaidHour gi)).
    simpl. now rewrite lookup_map, Hday.
  - unfold distributeFiveStarRaidHour.
    destruct (raidHourTime gi) as [t|]; [|now left].
    destruct (raidHourSectionId gi) as [sectionId|]; [|now left].
    destruct (_ && _); [|now left].
    right. exists t, isFiveStarBoss.
    simpl. now rewrite lookup_map, Hday.
Qed.

(** C4. Both raid hour distribution passes (the one that ends
    [processRaidsSection] and the one in [get]) keep a day that already has
    a raid hour window exactly as it is; a day a pass changes had no window,
    and the change is one window pushed: date, bosses and bonuses stay. *)
Theorem C4_raid_hour_passes_frame :
  forall gi,
    keepsDaysWithWindows (createRaidHourEntries gi)
    /\ keepsDaysWithWindows (distributeFiveStarRaidHour gi).
Proof.
  assert (Hboth : forall gi pass,
             pass = createRaidHourEntries gi \/ pass = distributeFiveStarRaidHour gi ->
             keepsDaysWithWindows pass).
  { intros gi pass Hpass ed i day Hday.
    destruct (raidHourPass_lookup gi ed i day pass Hpass Hday) as [H|(t & select & H)].
    - split; [intros _; exact H|].
      intros day' Hday' Hne. rewrite H in Hday'. now injection Hday' as <-.
    - destruct (attachRaidHour_cases t select day) as [Hkeep Hpush]. split.
      + intros Hne. now rewrite H, Hkeep.
      + intros day' Hday' Hne. rewrite H in Hday'. injection Hday' as <-.
        destruct (Hpush Hne) as [Hnone ->]. simpl. eauto 6. }
  intros gi. split; apply (Hboth gi); auto.
Qed.

Lemma C4_raid_hour_passes_frame_witness :
  raidSchedule (createRaidHourEntries
                  (mkGlobalInfo (Some "6:00 p.m. to 7:00 p.m. local time") (Some "raids")
                                ["five-star"; "mega"] [])
                  unovaData) !! 0 = Some unovaDay.
Proof.
  refine (proj1 (proj1 (C4_raid_hour_passes_frame _) unovaData 0 unovaDay _) _).
  - reflexivity.
  - discriminate.
Defined.

(** ** C1: the raid hour pass of [get] *)

Example fiveStarPage_traversed :
  traversePage fiveStarPage
  = ({| raidSchedule := [fiveStarDay]; raidbattles := [] |}, fiveStarInfo).
Proof. vm_compute. reflexivity. Qed.

(** C1, as stated, fails: on [fiveStarPage] the time was recorded in the
    five-star section and the day has no raid hours; the recorded keywords
    select none of its bosses, so a pass that selects by keyword leaves the
    day without a window, but the pass of [get] attaches a window with both
    bosses. *)
Lemma C1_counterexample :
  let ed := fst (traversePage fiveStarPage) in
  let gi := snd (traversePage fiveStarPage) in
  raidHourTime gi = Some "6:00 p.m. to 7:00 p.m. local time"
  /\ raidHourSectionId gi = Some "appearing-in-5-star-raids"
  /\ raidSchedule ed !! 0 = Some fiveStarDay
  /\ raidHours fiveStarDay = []
  /\ List.filter (matchesRaidHourKeyword (raidTypesWithRaidHour gi)) (bosses fiveStarDay) = []
  /\ raidSchedule (distributeFiveStarRaidHour gi ed) !! 0
     = Some (pushRaidHour (mkRaidHour "6:00 p.m. to 7:00 p.m. local time"
                                      (bosses fiveStarDay)) fiveStarDay)
  /\ raidSchedule (distributeFiveStarRaidHour gi ed) !! 0
     <> Some (attachRaidHour "6:00 p.m. to 7:00 p.m. local time"
                (matchesRaidHourKeyword (raidTypesWithRaidHour gi)) fiveStarDay).
Proof.
  vm_compute. repeat split; discriminate.
Qed.

Lemma tierLabel_five_star label :
  In label tierLabels ->
  includes (toLowerCase label) "tier 5" || includes (toLowerCase label) "five" = true
  <-> label = "Tier 5".
Proof.
  unfold tierLabels. simpl.
  intros [<-|[<-|[<-|[<-|[<-|[<-|[<-|[]]]]]]]]; vm_compute; split;
    (reflexivity || discriminate).
Qed.

(** C1, amended. If a raid hour time was recorded and it came from the
    "appearing in 5-star raids" section, then for every day without raid
    hours the pass of [get] selects the bosses of the day whose stored tier
    label, in lower case, contains "tier 5" or "five" (whatever keywords were
    recorded) and, if there are any, gives the day exactly one window, with
    the recorded time and those bosses; among bosses with a tier label or
    null, the selected ones are those of "Tier 5". *)
Theorem C1_five_star_distribution :
  forall gi ed t i day,
    raidHourTime gi = Some t -> t <> "" ->
    raidHourSectionId gi = Some "appearing-in-5-star-raids" ->
    raidSchedule ed !! i = Some day -> raidHours day = [] ->
    let fiveStarBosses :=
      List.filter (fun boss => includes (bossTypeLower boss) "tier 5"
                               || includes (bossTypeLower boss) "five") (bosses day) in
    raidSchedule (distributeFiveStarRaidHour gi ed) !! i
    = Some (if 0 <? length fiveStarBosses
            then {| date := date day; bosses := bosses day;
                    raidHours := [mkRaidHour t fiveStarBosses]; bonuses := bonuses day |}
            else day)
    /\ forall boss, isTierOrNull (raidType boss) ->
         (In boss fiveStarBosses <-> In boss (bosses day) /\ raidType boss = Some "Tier 5").
Proof.
  intros gi ed t i day Htime Ht Hsection Hday Hnone fiveStarBosses. split.
  - unfold distributeFiveStarRaidHour. rewrite Htime, Hsection. simpl.
    destruct (String.eqb_spec t ""); [contradiction|]. simpl.
    rewrite lookup_map, Hday. simpl. unfold attachRaidHour. rewrite Hnone.
    fold fiveStarBosses. unfold isFiveStarBoss. fold fiveStarBosses.
    unfold pushRaidHour. now rewrite Hnone.
  - intros boss Htier. unfold fiveStarBosses. rewrite filter_In.
    assert (H5 : includes (bossTypeLower boss) "tier 5"
                 || includes (bossTypeLower boss) "five" = true
                 <-> raidType boss = Some "Tier 5").
    { unfold bossTypeLower. destruct (raidType boss) as [label|]; simpl in *.
      - destruct (String.eqb_spec label "") as [->|_]; simpl.
        + split; discriminate.
        + rewrite (tierLabel_five_star label Htier). split; congruence.
      - split; discriminate. }
    tauto.
Qed.

Lemma C1_five_star_distribution_witness :
  raidSchedule (distributeFiveStarRaidHour fiveStarInfo
                  {| raidSchedule := [fiveStarDay]; raidbattles := [] |}) !! 0
  = Some {| date := date fiveStarDay; bosses := bosses fiveStarDay;
            raidHours := [mkRaidHour "6:00 p.m. to 7:00 p.m. local time" (bosses fiveStarDay)];
            bonuses := bonuses fiveStarDay |}.
Proof.
  refine (proj1 (C1_five_star_distribution fiveStarInfo _
                   "6:00 p.m. to 7:00 p.m. local time" 0 fiveStarDay _ _ _ _ _)).
  - reflexivity.
  - discriminate.
  - reflexivity.
  - reflexivity.
  - reflexivity.
Defined.

(** ** C2: when the passes run *)

(** C2, as stated, fails: on [megaDayPage] the pass with the recorded
    keywords runs when the raids section has been walked, before the day
    section creates the day, so the day ends without a raid hour; run after
    all the traversal, the pass gives the day a window. *)
Lemma C2_counterexample :
  extractEventData megaDayPage
  = {| raidSchedule := [{| date := "Monday, February 23"; bosses := [megaCharizard];
                           raidHours := []; bonuses := [] |}];
       raidbattles := [] |}
  /\ extractAsSpecified megaDayPage
     = {| raidSchedule :=
            [{| date := "Monday, February 23"; bosses := [megaCharizard];
                raidHours := [mkRaidHour "6:00 p.m. to 7:00 p.m. local time" [megaCharizard]];
                bonuses := [] |}];
          raidbattles := [] |}
  /\ extractEventData megaDayPage <> extractAsSpecified megaDayPage.
Proof.
  vm_compute. repeat split; discriminate.
Qed.

Lemma distributeNotes_schedule notes ed :
  raidSchedule (fold_left distributeNote notes ed)
  = map (addBonuses notes) (raidSchedule ed).
Proof.
  revert ed. induction notes as [|note notes IH]; intros ed; simpl.
  - symmetry. apply map_unchanged, Forall_forall. intros day _.
    unfold addBonuses. simpl. rewrite app_nil_r. now destruct day.
  - rewrite IH. simpl. rewrite map_map. apply map_ext. intros day.
    unfold attachBonus, addBonuses, notesOfDay. simpl.
    destruct (existsb _ (bosses day)); simpl; [|reflexivity].
    now rewrite <- app_assoc.
Qed.

Lemma traversePage_no_bonuses pageContent :
  holds (fun day => bonuses day = []) (fun _ => True) (fst (traversePage pageContent)).
Proof. apply traversePage_holds; simpl; auto. Qed.

Lemma distributeFiveStarRaidHour_no_bonuses gi ed :
  holds (fun day => bonuses day = []) (fun _ => True) ed ->
  holds (fun day => bonuses day = []) (fun _ => True) (distributeFiveStarRaidHour gi ed).
Proof. apply distributeFiveStarRaidHour_holds. simpl; auto. Qed.

(** C2, amended. The raid hour pass of [get] and the bonus distribution
    each run once, when all the traversal is done: the record is the
    traversed record after these two passes, no day has a bonus before the
    bonus distribution, and in the record the bonuses of a day are the
    recorded notes that mention one of its bosses, each once and in order.
    The pass with the recorded keywords is the end of [processRaidsSection]:
    it runs once per anchored section that is present, right after the walk
    of that section and before the day sections are walked. *)
Theorem C2_passes_order :
  forall pageContent,
    let st1 := processAnchor pageContent "raids" (emptyEventData, emptyGlobalInfo) in
    let st2 := processAnchor pageContent "appearing-in-5-star-raids" st1 in
    let gi := snd st2 in
    let traversed :=
      fold_left (processDayHeading gi) (querySelectorAll (has_tag "H2") pageContent)
                (fst st2) in
    extractEventData pageContent
    = distributeBonuses gi (distributeFiveStarRaidHour gi traversed)
    /\ Forall (fun day => bonuses day = [])
              (raidSchedule (distributeFiveStarRaidHour gi traversed))
    /\ raidSchedule (extractEventData pageContent)
       = map (fun day => {| date := date day; bosses := bosses day;
                            raidHours := raidHours day;
                            bonuses := notesOfDay (specialNotes gi) day |})
             (raidSchedule (distributeFiveStarRaidHour gi traversed))
    /\ (forall elements sectionId ed gi0,
           processRaidsSection elements sectionId ed gi0
           = (createRaidHourEntries
                (snd (traverseRaidsSection elements sectionId ed gi0))
                (fst (traverseRaidsSection elements sectionId ed gi0)),
              snd (traverseRaidsSection elements sectionId ed gi0))).
Proof.
  intros pageContent st1 st2 gi traversed.
  assert (Hextract : extractEventData pageContent
                     = distributeBonuses gi (distributeFiveStarRaidHour gi traversed)).
  { reflexivity. }
  assert (Hnone : Forall (fun day => bonuses day = [])
                         (raidSchedule (distributeFiveStarRaidHour gi traversed))).
  { apply (distributeFiveStarRaidHour_no_bonuses gi traversed).
    apply (traversePage_no_bonuses pageContent). }
  split; [exact Hextract|]. split; [exact Hnone|]. split.
  - rewrite Hextract. unfold distributeBonuses. rewrite distributeNotes_schedule.
    apply Forall_fmap_ext_1. eapply Forall_impl; [exact Hnone|].
    intros day Hday. unfold addBonuses. now rewrite Hday.
  - intros elements sectionId ed gi0. unfold processRaidsSection.
    now destruct (traverseRaidsSection elements sectionId ed gi0).
Qed.

(** ** C8: the fallback on the backup data *)

Lemma fallback_passedOver id entries :
  Forall (passedOver id) entries -> fallback id entries = mkOutcome [] true.
Proof.
  induction 1 as [|entry entries Hentry _ IH]; simpl; [reflexivity|].
  destruct Hentry as [Hid|Hnone].
  - destruct (extraData entry); [|exact IH].
    destruct (String.eqb_spec (eventID entry) id); [contradiction | exact IH].
  - now rewrite Hnone.
Qed.

(** The loop over a backup array in two parts: when the first part
    completes, the second part is walked and its records follow. *)
Lemma fallback_app id before after :
  completed (fallback id before) = true ->
  fallback id (before ++ after)
  = mkOutcome (written (fallback id before) ++ written (fallback id after))
              (completed (fallback id after)).
Proof.
  induction before as [|entry before IH]; simpl; intros Hdone.
  - now destruct (fallback id after).
  - destruct (extraData entry) as [extra|]; [|auto].
    destruct (String.eqb (eventID entry) id); [|auto].
    destruct (keyCount (fallbackDataOf extra)) as [n|]; [|discriminate].
    destruct (0 <? n); simpl in *; [|auto].
    now rewrite IH.
Qed.

Lemma getKey_hasKey key obj :
  hasKey key obj = false <-> getKey key obj = None.
Proof.
  unfold hasKey, getKey. induction obj as [|kv obj IH]; simpl; [tauto|].
  destruct (String.eqb (fst kv) key); simpl; [split; discriminate | exact IH].
Qed.

(** C8. When the page cannot be fetched and the loop has come through the
    entries before it, an entry of the backup that matches the event and
    holds flattened extra data with [raidSchedule], without [raidbattles] and
    without [event], makes the fallback write one record, whose data is the
    object with the single field [raidSchedule]; an entry whose recovered
    data is an object without fields (flattened extra data with neither key,
    or an empty nested [event]) makes it write nothing; in both cases the
    loop goes on with the entries after it, and a call completes without a
    record when all entries are of other events or carry no extra data. *)
Theorem C8_fallback_on_backup :
  forall id before entry after extra,
    completed (get None id before) = true ->
    eventID entry = id -> extraData entry = Some extra ->
    (forall schedule,
        hasKey "event" extra = false -> hasKey "raidbattles" extra = false ->
        getKey "raidSchedule" extra = Some schedule ->
        get None id (before ++ entry :: after)
        = mkOutcome
            (written (get None id before)
             ++ mkOutput id "event" (Recovered (JObject [("raidSchedule", schedule)]))
             :: written (get None id after))
            (completed (get None id after)))
    /\ (fallbackDataOf extra = JObject [] ->
        get None id (before ++ entry :: after)
        = mkOutcome (written (get None id before) ++ written (get None id after))
                    (completed (get None id after)))
    /\ (hasKey "event" extra = false -> hasKey "raidSchedule" extra = false ->
        hasKey "raidbattles" extra = false -> fallbackDataOf extra = JObject [])
    /\ (getKey "event" extra = Some (JObject []) -> fallbackDataOf extra = JObject [])
    /\ (forall others, Forall (passedOver id) others ->
                       get None id others = mkOutcome [] true).
Proof.
  intros id before entry after extra Hdone Hid Hextra. simpl in *.
  rewrite (fallback_app id before (entry :: after) Hdone). simpl.
  rewrite Hextra, Hid, String.eqb_refl.
  split; [|split; [|split; [|split]]].
  - intros schedule Hevent Hbattles Hschedule.
    unfold fallbackDataOf. rewrite Hevent, Hschedule.
    apply getKey_hasKey in Hbattles. rewrite Hbattles. reflexivity.
  - intros Hempty. rewrite Hempty. reflexivity.
  - intros Hevent Hschedule Hbattles. unfold fallbackDataOf. rewrite Hevent.
    apply getKey_hasKey in Hschedule, Hbattles. now rewrite Hschedule, Hbattles.
  - intros Hevent. unfold fallbackDataOf. rewrite Hevent.
    destruct (hasKey "event" extra) eqn:E; [reflexivity|].
    apply getKey_hasKey in E. congruence.
  - apply fallback_passedOver.
Qed.

Lemma C8_fallback_on_backup_witness :
  get None "unova" sampleBackup
  = mkOutcome [mkOutput "unova" "event" (Recovered (JObject [("raidSchedule", sampleSchedule)]))]
              true.
Proof.
  refine (proj1 (C8_fallback_on_backup "unova"
                   [mkBackup "community-day" (Some [("raidbattles", JArray [])])]
                   (mkBackup "unova" (Some [("generic", JObject [("hasSpawns", JBool true)]);
                                            ("raidSchedule", sampleSchedule)]))
                   [mkBackup "unova" None] _ _ _ _) sampleSchedule _ _ _);
    reflexivity.
Defined.

(** ** C9: [collectSectionElements] *)

(** C9, as stated, fails: the H1 heading after the H2 heading is of a
    higher level and does not stop the collection. *)
Lemma C9_counterexample :
  collectSectionElements raidsHeading
  = [p "Featured raids"; h1 "Other news"; p "Unrelated"]
  /\ collectAsSpecified raidsHeading = [p "Featured raids"]
  /\ collectSectionElements raidsHeading <> collectAsSpecified raidsHeading.
Proof.
  vm_compute. repeat split; discriminate.
Qed.

(** C9, amended. [collectSectionElements] returns, in order, the element
    siblings after the heading up to the next H2 sibling, both excluded (all
    the following siblings when there is no H2 among them); a heading of any
    other level, H1 included, is collected like any element. *)
Theorem C9_collect_until_next_h2 :
  forall start : cursor,
  exists rest,
    following start = collectSectionElements start ++ rest
    /\ Forall (fun e => tagName e <> "H2") (collectSectionElements start)
    /\ (rest = [] \/ exists next rest', rest = next :: rest' /\ tagName next = "H2").
Proof.
  intros [start siblings]. unfold collectSectionElements. simpl.
  induction siblings as [|current siblings (rest & Heq & Hall & Hnext)]; simpl.
  - exists []. auto.
  - destruct (String.eqb_spec (tagName current) "H2") as [Hh2|Hother]; simpl.
    + exists (current :: siblings). split; [reflexivity|]. split; [constructor|]. eauto.
    + exists rest. split; [now rewrite <- Heq|]. split; [now constructor | exact Hnext].
Qed.

(** ** C10: [parseRaidHeader] on the two headings of the specification *)

(** C10. Whatever the raid type of the context, [parseRaidHeader] maps
    "Five-Star Raids: Tuesday, November 11" to the raid type "Five-Star Raids"
    and the date "Tuesday, November 11", and "Appearing in 5-Star Raids
    (Saturday)" to the raid type "5-Star Raids" and the bare weekday
    "Saturday" as the date. *)
Theorem C10_parseRaidHeader_examples :
  forall contextRaidType,
    parseRaidHeader "Five-Star Raids: Tuesday, November 11" contextRaidType
    = Some {| h_raidType := "Five-Star Raids"; h_date := "Tuesday, November 11" |}
    /\ parseRaidHeader "Appearing in 5-Star Raids (Saturday)" contextRaidType
       = Some {| h_raidType := "5-Star Raids"; h_date := "Saturday" |}.
Proof.
  intros contextRaidType. split; vm_compute; reflexivity.
Qed.

(** * More on the extraction *)

(** ** Every change of the record is one of the updates *)

Lemma truthy_nonempty t : truthy (Some t) = true -> t <> "".
Proof.
  simpl. destruct (String.eqb_spec t ""); [discriminate | auto].
Qed.

Lemma localTime_append clock : localTime (String.append clock " local time").
Proof. now exists clock. Qed.


Section Evolution.

Variable T : string -> Prop.
Hypothesis T_local : forall clock, T (String.append clock " local time").

Lemma evolves_trans ed1 ed2 ed3 : evolves T ed1 ed2 -> evolves T ed2 ed3 -> evolves T ed1 ed3.
Proof. apply rtc_trans. Qed.

Lemma findOrCreateDay_evolves d ed : evolves T ed (fst (findOrCreateDay d ed)).
Proof.
  unfold findOrCreateDay.
  destruct (findDateIndex d (raidSchedule ed)) eqn:E; simpl.
  - apply rtc_refl.
  - apply rtc_once. now constructor.
Qed.

Lemma dayRaidHourText_time element v :
  optionalTime T (d_raidHourTime v) ->
  optionalTime T (d_raidHourTime (dayRaidHourText element v)).
Proof.
  intros H. unfold dayRaidHourText.
  destruct (_ && _); [|assumption].
  destruct (includes _ _); [|assumption]. simpl.
  destruct (exec true dayTimeRegex _); [apply T_local | assumption].
Qed.

Lemma dayHeading_time element v :
  d_raidHourTime (dayHeading element v) = d_raidHourTime v.
Proof.
  unfold dayHeading.
  repeat match goal with
         | |- context [if ?c then _ else _] => destruct c
         end; reflexivity.
Qed.

Lemma dayStep_evolves i st element :
  optionalTime T (d_raidHourTime (fst st)) ->
  evolves T (snd st) (snd (dayStep i st element))
  /\ optionalTime T (d_raidHourTime (fst (dayStep i st element))).
Proof.
  intros H. unfold dayStep. cbn [fst snd]. split.
  - unfold dayPokemonList.
    destruct (_ && _); [apply rtc_once; constructor | apply rtc_refl].
  - apply dayRaidHourText_time. now rewrite dayHeading_time.
Qed.

Lemma dayLoop_evolves i elements st :
  optionalTime T (d_raidHourTime (fst st)) ->
  evolves T (snd st) (snd (fold_left (dayStep i) elements st))
  /\ optionalTime T (d_raidHourTime (fst (fold_left (dayStep i) elements st))).
Proof.
  revert st. induction elements as [|element elements IH]; intros st H; simpl.
  - split; [apply rtc_refl | assumption].
  - destruct (dayStep_evolves i st element H) as [Hev Htime].
    destruct (IH _ Htime) as [Hev' Htime'].
    split; [eapply evolves_trans; eassumption | assumption].
Qed.

Lemma filter_nonempty {A} (f : A -> bool) l :
  (0 <? length (List.filter f l)) = true -> List.filter f l <> [].
Proof. destruct (List.filter f l); [discriminate | discriminate]. Qed.

Lemma dayRaidHourEntry_evolves i v ed :
  optionalTime T (d_raidHourTime v) -> evolves T ed (dayRaidHourEntry i v ed).
Proof.
  intros H. unfold dayRaidHourEntry.
  destruct (_ && _); [|apply rtc_refl].
  destruct (d_raidHourTime v) as [t|]; [|apply rtc_refl].
  destruct (raidSchedule ed !! i) as [day|] eqn:Hday; [|apply rtc_refl].
  destruct (0 <? _) eqn:Hsome; [|apply rtc_refl].
  apply rtc_once. constructor; [assumption | assumption | now apply filter_nonempty].
Qed.

Lemma processDayRaidSection_evolves elements dayHeader ed gi :
  evolves T ed (processDayRaidSection elements dayHeader ed gi).
Proof.
  unfold processDayRaidSection.
  pose proof (findOrCreateDay_evolves (trim (before_sep ":" dayHeader)) ed) as H0.
  destruct (findOrCreateDay _ ed) as [ed0 i]. cbn [fst] in H0.
  destruct (dayLoop_evolves i elements (mkDayVars None None [] false, ed0) I) as [H1 Ht].
  destruct (fold_left _ elements _) as [v ed1]. cbn [fst snd] in *.
  eapply evolves_trans; [exact H0|]. eapply evolves_trans; [exact H1|].
  now apply dayRaidHourEntry_evolves.
Qed.

Lemma sectionRaidHourText_time sectionId element gi :
  optionalTime T (raidHourTime gi) ->
  optionalTime T (raidHourTime (sectionRaidHourText sectionId element gi)).
Proof.
  intros H. unfold sectionRaidHourText.
  destruct (_ && _); [|assumption]. simpl.
  destruct (exec true sectionTimeRegex _); [apply T_local | assumption].
Qed.

Lemma sectionBonusNote_time element gi :
  raidHourTime (sectionBonusNote element gi) = raidHourTime gi.
Proof.
  unfold sectionBonusNote.
  repeat match goal with
         | |- context [if ?c then _ else _] => destruct c
         end; reflexivity.
Qed.

Lemma sectionStep_evolves sectionId st element :
  optionalTime T (raidHourTime (snd st)) ->
  evolves T (snd (fst st)) (snd (fst (sectionStep sectionId st element)))
  /\ optionalTime T (raidHourTime (snd (sectionStep sectionId st element))).
Proof.
  destruct st as [[v ed] gi]. cbn [fst snd]. intros H. unfold sectionStep.
  assert (H1 : evolves T ed (snd (sectionHeading element (v, ed)))).
  { unfold sectionHeading. destruct (_ && _); [|apply rtc_refl].
    destruct (parseRaidHeader _ _) as [parsed|]; [|apply rtc_refl].
    pose proof (findOrCreateDay_evolves (h_date parsed) ed) as H0.
    destruct (findOrCreateDay _ ed) as [ed' entry]. exact H0. }
  destruct (sectionHeading element (v, ed)) as [v1 ed1]. cbn [fst snd] in *. split.
  - eapply evolves_trans; [exact H1|]. unfold sectionPokemonList.
    destruct (String.eqb (className element) "pkmn-list-flex"); [|apply rtc_refl].
    destruct (currentDateEntry v1) as [entry|]; [destruct (truthy _)|];
      apply rtc_once; constructor.
  - rewrite sectionBonusNote_time. now apply sectionRaidHourText_time.
Qed.

Lemma sectionLoop_evolves sectionId elements st :
  optionalTime T (raidHourTime (snd st)) ->
  evolves T (snd (fst st)) (snd (fst (fold_left (sectionStep sectionId) elements st)))
  /\ optionalTime T (raidHourTime (snd (fold_left (sectionStep sectionId) elements st))).
Proof.
  revert st. induction elements as [|element elements IH]; intros st H; simpl.
  - split; [apply rtc_refl | assumption].
  - destruct (sectionStep_evolves sectionId st element H) as [Hev Htime].
    destruct (IH _ Htime) as [Hev' Htime'].
    split; [eapply evolves_trans; eassumption | assumption].
Qed.

Lemma traverseRaidsSection_evolves elements sectionId ed gi :
  optionalTime T (raidHourTime gi) ->
  evolves T ed (fst (traverseRaidsSection elements sectionId ed gi))
  /\ optionalTime T (raidHourTime (snd (traverseRaidsSection elements sectionId ed gi))).
Proof.
  intros H. unfold traverseRaidsSection.
  pose proof (sectionLoop_evolves sectionId elements
                (initialSectionVars sectionId, ed, gi) H) as H1.
  destruct (fold_left _ elements _) as [[v ed'] gi']. exact H1.
Qed.

Lemma createRaidHourEntries_evolves gi ed :
  optionalTime T (raidHourTime gi) -> evolves T ed (createRaidHourEntries gi ed).
Proof.
  intros H. unfold createRaidHourEntries.
  destruct (raidHourTime gi) as [t|]; [|apply rtc_refl].
  destruct (truthy _); [|apply rtc_refl].
  apply rtc_once. now constructor.
Qed.

Lemma processRaidsSection_evolves elements sectionId ed gi :
  optionalTime T (raidHourTime gi) ->
  evolves T ed (fst (processRaidsSection elements sectionId ed gi))
  /\ optionalTime T (raidHourTime (snd (processRaidsSection elements sectionId ed gi))).
Proof.
  intros H. unfold processRaidsSection.
  destruct (traverseRaidsSection_evolves elements sectionId ed gi H) as [H1 H2].
  destruct (traverseRaidsSection _ _ _ _) as [ed' gi']. cbn [fst snd] in *.
  split; [|assumption].
  eapply evolves_trans; [exact H1 | now apply createRaidHourEntries_evolves].
Qed.

Lemma processAnchor_evolves pageContent sectionId st :
  optionalTime T (raidHourTime (snd st)) ->
  evolves T (fst st) (fst (processAnchor pageContent sectionId st))
  /\ optionalTime T (raidHourTime (snd (processAnchor pageContent sectionId st))).
Proof.
  intros H. unfold processAnchor.
  destruct (querySelector _ _); [now apply processRaidsSection_evolves|].
  split; [apply rtc_refl | assumption].
Qed.

Lemma dayHeadings_evolves gi h2s ed :
  evolves T ed (fold_left (processDayHeading gi) h2s ed).
Proof.
  revert ed. induction h2s as [|h2 h2s IH]; intros ed; simpl.
  - apply rtc_refl.
  - eapply evolves_trans; [|apply IH]. unfold processDayHeading.
    destruct (test _ _ _); [apply processDayRaidSection_evolves | apply rtc_refl].
Qed.

Lemma traversePage_evolves pageContent :
  evolves T emptyEventData (fst (traversePage pageContent))
  /\ optionalTime T (raidHourTime (snd (traversePage pageContent))).
Proof.
  unfold traversePage. cbn [fst snd].
  destruct (processAnchor_evolves pageContent "raids"
              (emptyEventData, emptyGlobalInfo) I) as [H1 HT1].
  destruct (processAnchor_evolves pageContent "appearing-in-5-star-raids" _ HT1) as [H2 HT2].
  split; [|assumption].
  eapply evolves_trans; [exact H1|]. eapply evolves_trans; [exact H2|].
  apply dayHeadings_evolves.
Qed.

Lemma distributeFiveStarRaidHour_evolves gi ed :
  optionalTime T (raidHourTime gi) -> evolves T ed (distributeFiveStarRaidHour gi ed).
Proof.
  intros H. unfold distributeFiveStarRaidHour.
  destruct (raidHourTime gi) as [t|]; [|apply rtc_refl].
  destruct (raidHourSectionId gi); [|apply rtc_refl].
  destruct (_ && _); [|apply rtc_refl].
  apply rtc_once. now constructor.
Qed.

Lemma distributeBonuses_evolves gi ed : evolves T ed (distributeBonuses gi ed).
Proof.
  unfold distributeBonuses. revert ed.
  induction (specialNotes gi) as [|note notes IH]; intros ed; simpl.
  - apply rtc_refl.
  - eapply rtc_l; [apply update_note | apply IH].
Qed.

Lemma extractEventData_evolves pageContent :
  evolves T emptyEventData (extractEventData pageContent).
Proof.
  unfold extractEventData.
  destruct (traversePage_evolves pageContent) as [H HT].
  destruct (traversePage pageContent) as [ed gi]. cbn [fst snd] in *.
  eapply evolves_trans; [exact H|].
  eapply evolves_trans; [exact (distributeFiveStarRaidHour_evolves gi ed HT)|].
  apply distributeBonuses_evolves.
Qed.

(** A property the updates keep is kept along [evolves]. *)
Lemma evolves_keeps (P : EventData -> Prop) :
  (forall ed ed', update T ed ed' -> P ed -> P ed') ->
  forall ed ed', evolves T ed ed' -> P ed -> P ed'.
Proof.
  intros Hstep ed ed' H. induction H as [|ed1 ed2 ed3 H12 _ IH]; [auto|].
  intros H1. apply IH. eapply Hstep; eassumption.
Qed.

End Evolution.

Lemma optionalTime_any t : optionalTime (fun _ => True) t.
Proof. now destruct t. Qed.

(** ** The dates of the schedule are unique *)

Lemma findDateIndex_None d schedule :
  findDateIndex d schedule = None <-> ~ In d (map date schedule).
Proof.
  induction schedule as [|entry schedule IH]; simpl; [tauto|].
  destruct (String.eqb_spec (date entry) d) as [Hd|Hd].
  - split; [discriminate | tauto].
  - destruct (findDateIndex d schedule) as [j|].
    + split; [discriminate|]. intros Hnot.
      assert (Hj : Some j = None) by (apply IH; tauto). discriminate.
    + split; [|reflexivity]. intros _ [Heq|Hin]; [contradiction | now apply IH].
Qed.

Lemma dates_alter (f : ScheduleDay -> ScheduleDay) i schedule :
  (forall day, date (f day) = date day) ->
  map date (alter f i schedule) = map date schedule.
Proof.
  intros Hf. revert i. induction schedule as [|entry schedule IH]; intros [|i]; simpl;
    try reflexivity.
  - now rewrite Hf.
  - f_equal. apply IH.
Qed.

Lemma dates_map (f : ScheduleDay -> ScheduleDay) schedule :
  (forall day, date (f day) = date day) ->
  map date (map f schedule) = map date schedule.
Proof.
  intros Hf. rewrite map_map. apply map_ext. exact Hf.
Qed.

Lemma attachRaidHour_date t select day : date (attachRaidHour t select day) = date day.
Proof.
  unfold attachRaidHour. destruct (raidHours day); [|reflexivity].
  now destruct (0 <? _).
Qed.

Lemma attachBonus_date note day : date (attachBonus note day) = date day.
Proof. unfold attachBonus. now destruct (existsb _ _). Qed.

Lemma update_dates T ed ed' :
  update T ed ed' -> map date (raidSchedule ed') = map date (raidSchedule ed)
                     \/ exists d, ~ In d (map date (raidSchedule ed))
                                  /\ map date (raidSchedule ed') = map date (raidSchedule ed) ++ [d].
Proof.
  intros H. destruct H; simpl.
  - right. exists d. split; [now apply findDateIndex_None | now rewrite map_app].
  - left. now apply dates_alter.
  - now left.
  - left. now apply dates_alter.
  - left. apply dates_map. intros day0. apply attachRaidHour_date.
  - left. apply dates_map. intros day0. apply attachBonus_date.
Qed.

Lemma update_uniqueDates T ed ed' :
  update T ed ed' -> uniqueDates ed -> uniqueDates ed'.
Proof.
  unfold uniqueDates. intros H Hnd.
  destruct (update_dates T ed ed' H) as [->|(d & Hd & ->)]; [assumption|].
  apply NoDup_ListNoDup, NoDup_app. repeat split.
  - now apply NoDup_ListNoDup.
  - intros x Hx Hx'. apply list_elem_of_In in Hx. apply list_elem_of_In in Hx'.
    destruct Hx' as [<-|[]]. contradiction.
  - apply NoDup_ListNoDup. constructor; [tauto | constructor].
Qed.

Lemma uniqueDates_index schedule i day :
  List.NoDup (map date schedule) -> schedule !! i = Some day ->
  findDateIndex (date day) schedule = Some i.
Proof.
  revert i. induction schedule as [|entry schedule IH]; intros i Hnd Hday; [discriminate|].
  simpl in Hnd. inversion Hnd as [|? ? Hnotin Hnd']; subst. simpl.
  destruct i as [|i]; simpl in Hday.
  - injection Hday as ->. now rewrite String.eqb_refl.
  - destruct (String.eqb_spec (date entry) (date day)) as [Heq|_].
    + exfalso. apply Hnotin. rewrite Heq. apply in_map.
      apply list_elem_of_In. eapply list_elem_of_lookup_2. exact Hday.
    + now rewrite (IH i Hnd' Hday).
Qed.

(** X1. The dates of the schedule are unique: in the record [get] writes
    from a page no two days have the same date, and looking a day's date up
    finds that day; [processRaidsSection] and [processDayRaidSection] keep
    the dates of any schedule they are given unique. *)
Theorem X1_schedule_dates_unique :
  (forall dom id bkp rec ed,
      In rec (written (get dom id bkp)) -> out_data rec = Extracted ed ->
      List.NoDup (map date (raidSchedule ed))
      /\ forall i day, raidSchedule ed !! i = Some day ->
                       findDateIndex (date day) (raidSchedule ed) = Some i)
  /\ (forall elements sectionId ed gi,
         uniqueDates ed -> uniqueDates (fst (processRaidsSection elements sectionId ed gi)))
  /\ (forall elements dayHeader ed gi,
         uniqueDates ed -> uniqueDates (processDayRaidSection elements dayHeader ed gi)).
Proof.
  assert (Hkeep : forall ed ed', evolves (fun _ => True) ed ed' ->
                                 uniqueDates ed -> uniqueDates ed').
  { apply evolves_keeps. apply update_uniqueDates. }
  split; [|split].
  - intros dom id bkp rec ed Hin Hdata.
    destruct (get_extracted _ _ _ _ _ Hin Hdata) as [pageContent ->].
    assert (Hnd : uniqueDates (extractEventData pageContent)).
    { apply (Hkeep emptyEventData); [|constructor].
      now apply extractEventData_evolves. }
    split; [exact Hnd|]. intros i day. now apply uniqueDates_index.
  - intros elements sectionId ed gi. apply Hkeep.
    apply processRaidsSection_evolves; [auto | apply optionalTime_any].
  - intros elements dayHeader ed gi. apply Hkeep.
    now apply processDayRaidSection_evolves.
Qed.

Lemma X1_schedule_dates_unique_witness :
  List.NoDup (map date (raidSchedule unovaData))
  /\ forall i day, raidSchedule unovaData !! i = Some day ->
                   findDateIndex (date day) (raidSchedule unovaData) = Some i.
Proof.
  apply (proj1 X1_schedule_dates_unique (Some unovaDocument) "unova" [] unovaRecord unovaData).
  - vm_compute. left. reflexivity.
  - reflexivity.
Defined.

(** ** The traversal only appends *)

Lemma extends_refl {A} (l : list A) : extends l l.
Proof. exists []. now rewrite app_nil_r. Qed.

Lemma extends_trans {A} (l1 l2 l3 : list A) :
  extends l1 l2 -> extends l2 l3 -> extends l1 l3.
Proof. intros [m1 ->] [m2 ->]. exists (m1 ++ m2). now rewrite app_assoc. Qed.

Lemma extends_app {A} (l more : list A) : extends l (l ++ more).
Proof. now exists more. Qed.

Lemma dayGrows_refl day : dayGrows day day.
Proof. repeat split; apply extends_refl. Qed.

Lemma dayGrows_trans d1 d2 d3 : dayGrows d1 d2 -> dayGrows d2 d3 -> dayGrows d1 d3.
Proof.
  intros (Hd & Hb & Hr & Hn) (Hd' & Hb' & Hr' & Hn').
  repeat split; [congruence | | |]; eapply extends_trans; eassumption.
Qed.

Lemma grows_refl ed : grows ed ed.
Proof.
  split; [|apply extends_refl]. intros i day H. exists day. split; [assumption|].
  apply dayGrows_refl.
Qed.

Lemma grows_trans ed1 ed2 ed3 : grows ed1 ed2 -> grows ed2 ed3 -> grows ed1 ed3.
Proof.
  intros [H12 S12] [H23 S23]. split; [|eapply extends_trans; eassumption].
  intros i day Hday. destruct (H12 i day Hday) as (day2 & Hday2 & G12).
  destruct (H23 i day2 Hday2) as (day3 & Hday3 & G23).
  exists day3. split; [assumption | eapply dayGrows_trans; eassumption].
Qed.

Lemma addBossesToList_extends l found : extends l (addBossesToList l found).
Proof.
  unfold addBossesToList. revert l.
  induction found as [|boss found IH]; intros l; simpl; [apply extends_refl|].
  eapply extends_trans; [|apply IH].
  unfold pushBossIfNew. destruct (negb _); [apply extends_app | apply extends_refl].
Qed.

Lemma grows_alter (f : ScheduleDay -> ScheduleDay) i ed :
  (forall day, dayGrows day (f day)) -> grows ed (updateDay i f ed).
Proof.
  intros Hf. split; [|apply extends_refl]. intros j day Hday. simpl.
  destruct (decide (i = j)) as [->|Hne].
  - exists (f day). rewrite list_lookup_alter_eq, Hday. split; [reflexivity | apply Hf].
  - exists day. rewrite list_lookup_alter_ne by assumption.
    split; [assumption | apply dayGrows_refl].
Qed.

Lemma grows_map (f : ScheduleDay -> ScheduleDay) ed :
  (forall day, dayGrows day (f day)) ->
  grows ed {| raidSchedule := map f (raidSchedule ed); raidbattles := raidbattles ed |}.
Proof.
  intros Hf. split; [|apply extends_refl]. intros j day Hday. simpl.
  exists (f day). rewrite lookup_map, Hday. split; [reflexivity | apply Hf].
Qed.

Lemma attachRaidHour_grows t select day : dayGrows day (attachRaidHour t select day).
Proof.
  unfold attachRaidHour. destruct (raidHours day) eqn:E; [|apply dayGrows_refl].
  destruct (0 <? _); [|apply dayGrows_refl].
  repeat split; simpl; try apply extends_refl. apply extends_app.
Qed.

Lemma update_grows T ed ed' : update T ed ed' -> grows ed ed'.
Proof.
  intros H. destruct H.
  - split; [|apply extends_refl]. intros j day0 Hday. exists day0. simpl.
    rewrite lookup_app_l by (eapply lookup_lt_Some; eassumption).
    split; [assumption | apply dayGrows_refl].
  - apply grows_alter. intros day0.
    repeat split; simpl; try apply extends_refl. apply addBossesToList_extends.
  - split; [|apply addBossesToList_extends]. intros j day0 Hday. exists day0.
    split; [assumption | apply dayGrows_refl].
  - apply grows_alter. intros day0.
    repeat split; simpl; try apply extends_refl. apply extends_app.
  - apply grows_map. intros day0. apply attachRaidHour_grows.
  - apply grows_map. intros day0. unfold attachBonus.
    destruct (existsb _ _); [|apply dayGrows_refl].
    repeat split; simpl; try apply extends_refl. apply extends_app.
Qed.

Lemma evolves_grows T ed ed' : evolves T ed ed' -> grows ed ed'.
Proof.
  induction 1 as [|ed1 ed2 ed3 H12 _ IH]; [apply grows_refl|].
  eapply grows_trans; [eapply update_grows; eassumption | exact IH].
Qed.

(** X2. The scraper only appends: whatever record they are given,
    [processRaidsSection], [processDayRaidSection] and the two passes of
    [get] keep every day at its place with its date, and the bosses, raid
    hours and bonuses of a day and the static list as they were, with new
    elements after them at most. Nothing found by an earlier section is
    removed or replaced by a later one. *)
Theorem X2_extraction_only_appends :
  (forall elements sectionId ed gi,
      grows ed (fst (processRaidsSection elements sectionId ed gi)))
  /\ (forall elements dayHeader ed gi,
         grows ed (processDayRaidSection elements dayHeader ed gi))
  /\ (forall gi ed, grows ed (distributeBonuses gi (distributeFiveStarRaidHour gi ed))).
Proof.
  split; [|split].
  - intros elements sectionId ed gi. apply (evolves_grows (fun _ => True)).
    apply processRaidsSection_evolves; [auto | apply optionalTime_any].
  - intros elements dayHeader ed gi. apply (evolves_grows (fun _ => True)).
    now apply processDayRaidSection_evolves.
  - intros gi ed. eapply grows_trans; apply (evolves_grows (fun _ => True)).
    + apply distributeFiveStarRaidHour_evolves, optionalTime_any.
    + apply distributeBonuses_evolves.
Qed.

(** ** Raid hour windows are well formed *)




(** ** [parseBossesFromList]: one boss per item with a name and an image *)

Lemma find_existsb {A} (f : A -> bool) l :
  match List.find f l with Some _ => true | None => false end = existsb f l.
Proof.
  induction l as [|x l IH]; simpl; [reflexivity|]. now destruct (f x).
Qed.

Lemma existsb_flat_map {A B} (f : B -> bool) (g : A -> list B) l :
  existsb f (flat_map g l) = existsb (fun x => existsb f (g x)) l.
Proof.
  induction l as [|x l IH]; simpl; [reflexivity|].
  now rewrite existsb_app, IH.
Qed.

Lemma existsb_filter {A} (f g : A -> bool) l :
  existsb f (List.filter g l) = existsb (fun x => g x && f x) l.
Proof.
  induction l as [|x l IH]; simpl; [reflexivity|].
  destruct (g x); simpl; now rewrite IH.
Qed.

Lemma parseBossFromElement_some item rt :
  match parseBossFromElement item rt with Some _ => true | None => false end
  = hasNameAndImage item.
Proof.
  unfold parseBossFromElement, hasNameAndImage.
  rewrite <- (find_existsb (has_class "pkmn-name")).
  rewrite <- existsb_filter, <- existsb_flat_map, <- (find_existsb (has_tag "IMG")).
  destruct (List.find (has_class "pkmn-name") _); [|reflexivity].
  now destruct (List.find (has_tag "IMG") _).
Qed.

Lemma omap_length_filter {A B} (f : A -> option B) l :
  length (omap f l)
  = length (List.filter (fun x => match f x with Some _ => true | None => false end) l).
Proof.
  induction l as [|x l IH]; simpl; [reflexivity|].
  destruct (f x); simpl; [f_equal|]; exact IH.
Qed.

Lemma parseBossFromElement_details item rt rt' :
  option_map (fun boss => (name boss, image boss, canBeShiny boss))
             (parseBossFromElement item rt)
  = option_map (fun boss => (name boss, image boss, canBeShiny boss))
               (parseBossFromElement item rt').
Proof.
  unfold parseBossFromElement.
  destruct (List.find (has_class "pkmn-name") _); [|reflexivity].
  now destruct (List.find (has_tag "IMG") _).
Qed.

(** X4. [parseBossesFromList] gives one boss for each direct child of
    class [pkmn-list-item] that has a name element and an image, and none for
    the others; the raid type phrase changes the tier of the bosses only, not
    their number, names, images or shiny flags. *)
Theorem X4_one_boss_per_complete_item :
  forall pokemonList rt,
    length (parseBossesFromList pokemonList rt)
    = length (List.filter hasNameAndImage
                (List.filter (has_class "pkmn-list-item") (children pokemonList)))
    /\ Forall (fun boss => raidType boss = getTierFromRaidType rt)
              (parseBossesFromList pokemonList rt)
    /\ forall rt',
        map (fun boss => (name boss, image boss, canBeShiny boss))
            (parseBossesFromList pokemonList rt)
        = map (fun boss => (name boss, image boss, canBeShiny boss))
              (parseBossesFromList pokemonList rt').
Proof.
  intros pokemonList rt. unfold parseBossesFromList.
  set (items := List.filter (has_class "pkmn-list-item") (children pokemonList)).
  split; [|split].
  - rewrite omap_length_filter. f_equal. apply filter_ext.
    intros item. apply parseBossFromElement_some.
  - apply Forall_forall. intros boss Hin.
    apply list_elem_of_omap in Hin as (item & _ & Hitem).
    now apply parseBossFromElement_tier in Hitem.
  - intros rt'. induction items as [|item items IH]; simpl; [reflexivity|].
    pose proof (parseBossFromElement_details item rt rt') as Hitem.
    destruct (parseBossFromElement item rt), (parseBossFromElement item rt');
      simpl in *; try discriminate; [|exact IH].
    injection Hitem as H1 H2 H3. f_equal; [congruence | exact IH].
Qed.

(** ** [getTierFromRaidType]: letter case, and its own labels *)

Lemma toLowerCase_empty s : toLowerCase s = "" -> s = "".
Proof. destruct s; [reflexivity | discriminate]. Qed.

(** X5. [getTierFromRaidType] does not look at letter case: two phrases
    with the same lower case form get the same tier. *)
Theorem X5_tier_ignores_case :
  forall s1 s2,
    toLowerCase s1 = toLowerCase s2 ->
    getTierFromRaidType (Some s1) = getTierFromRaidType (Some s2).
Proof.
  intros s1 s2 H. unfold getTierFromRaidType.
  assert (Ht : truthy (Some s1) = truthy (Some s2)).
  { simpl. destruct (String.eqb_spec s1 "") as [->|H1], (String.eqb_spec s2 "") as [->|H2];
      try reflexivity.
    - symmetry in H. apply toLowerCase_empty in H. contradiction.
    - apply toLowerCase_empty in H. contradiction. }
  rewrite Ht, H. reflexivity.
Qed.

Lemma X5_tier_ignores_case_witness :
  getTierFromRaidType (Some "FIVE-STAR Shadow Raids")
  = getTierFromRaidType (Some "five-star shadow raids").
Proof.
  apply X5_tier_ignores_case. reflexivity.
Defined.

(** X6. The tier labels are not phrases the classifier recognises in
    general: classified again, the labels "Mega", "Primal" and "Shadow" (and
    null) map to themselves, but "Tier 1", "Tier 3", "Tier 5" and "Tier 6"
    map to null. *)
Theorem X6_tier_of_a_tier_label :
  forall rt,
    let tier := getTierFromRaidType rt in
    (In tier [None; Some "Mega"; Some "Primal"; Some "Shadow"] ->
     getTierFromRaidType tier = tier)
    /\ (In tier [Some "Tier 1"; Some "Tier 3"; Some "Tier 5"; Some "Tier 6"] ->
        getTierFromRaidType tier = None)
    /\ (getTierFromRaidType tier = tier \/ getTierFromRaidType tier = None).
Proof.
  intros rt tier.
  assert (Hcases : forall t, In t [None; Some "Mega"; Some "Primal"; Some "Shadow"] ->
                             getTierFromRaidType t = t).
  { simpl. intros t [<-|[<-|[<-|[<-|[]]]]]; reflexivity. }
  assert (Hstars : forall t, In t [Some "Tier 1"; Some "Tier 3"; Some "Tier 5";
                                   Some "Tier 6"] ->
                             getTierFromRaidType t = None).
  { simpl. intros t [<-|[<-|[<-|[<-|[]]]]]; reflexivity. }
  split; [apply Hcases|]. split; [apply Hstars|].
  pose proof (getTierFromRaidType_closed rt) as Hclosed. fold tier in Hclosed.
  destruct tier as [label|]; [|left; reflexivity].
  simpl in Hclosed.
  destruct Hclosed as [<-|[<-|[<-|[<-|[<-|[<-|[<-|[]]]]]]]];
    (left; reflexivity) || (right; reflexivity).
Qed.

Lemma X6_tier_of_a_tier_label_witness :
  getTierFromRaidType (getTierFromRaidType (Some "Five-Star Raids")) = None
  /\ getTierFromRaidType (getTierFromRaidType (Some "Mega Raids")) = Some "Mega".
Proof.
  split.
  - apply (proj1 (proj2 (X6_tier_of_a_tier_label (Some "Five-Star Raids")))).
    vm_compute. tauto.
  - apply (proj1 (X6_tier_of_a_tier_label (Some "Mega Raids"))).
    vm_compute. tauto.
Defined.

(** ** [findOrCreateDay]: lookup or create *)

Lemma findDateIndex_snoc d schedule :
  findDateIndex d schedule = None ->
  findDateIndex d (schedule ++ [newDay d]) = Some (length schedule).
Proof.
  induction schedule as [|entry schedule IH]; simpl.
  - intros _. now rewrite String.eqb_refl.
  - destruct (String.eqb (date entry) d); [discriminate|].
    destruct (findDateIndex d schedule); [discriminate|].
    intros _. now rewrite IH.
Qed.

(** X7. [findOrCreateDay] finds the entry of a date or appends an empty
    one: the entry it returns is the one a lookup of the date finds
    afterwards, asking again for the same date changes nothing and returns
    the same entry, the entries that were there are kept in place, at most
    one entry is added, and the static list is not touched. *)
Theorem X7_find_or_create_day :
  forall d ed,
    let ed' := fst (findOrCreateDay d ed) in
    let entry := snd (findOrCreateDay d ed) in
    findDateIndex d (raidSchedule ed') = Some entry
    /\ findOrCreateDay d ed' = (ed', entry)
    /\ (raidSchedule ed' = raidSchedule ed
        \/ (findDateIndex d (raidSchedule ed) = None
            /\ raidSchedule ed' = raidSchedule ed ++ [newDay d]))
    /\ raidbattles ed' = raidbattles ed.
Proof.
  intros d ed. unfold findOrCreateDay.
  destruct (findDateIndex d (raidSchedule ed)) as [i|] eqn:E; simpl.
  - rewrite E. auto.
  - rewrite (findDateIndex_snoc d _ E). auto 6.
Qed.

(** ** [addBossesToList]: the first boss of a name stays *)

Lemma hasBossNamed_app n l more :
  hasBossNamed n (l ++ more) = hasBossNamed n l || hasBossNamed n more.
Proof. unfold hasBossNamed. apply existsb_app. Qed.

Lemma hasBossNamed_pushBossIfNew n l boss :
  hasBossNamed n l = true -> hasBossNamed n (pushBossIfNew l boss) = true.
Proof.
  intros H. unfold pushBossIfNew. destruct (negb _); [|assumption].
  now rewrite hasBossNamed_app, H.
Qed.

Lemma hasBossNamed_addBossesToList n l found :
  hasBossNamed n l = true -> hasBossNamed n (addBossesToList l found) = true.
Proof.
  unfold addBossesToList. revert l.
  induction found as [|boss found IH]; intros l H; simpl; [assumption|].
  apply IH. now apply hasBossNamed_pushBossIfNew.
Qed.

Lemma pushBossIfNew_named l boss :
  hasBossNamed (name boss) (pushBossIfNew l boss) = true.
Proof.
  unfold pushBossIfNew. destruct (hasBossNamed (name boss) l) eqn:E; simpl.
  - assumption.
  - rewrite hasBossNamed_app. simpl. now rewrite String.eqb_refl, orb_true_r.
Qed.

Lemma addBossesToList_known l found :
  Forall (fun boss => hasBossNamed (name boss) l = true) found ->
  addBossesToList l found = l.
Proof.
  unfold addBossesToList.
  induction 1 as [|boss found Hboss _ IH]; cbn [fold_left]; [reflexivity|].
  unfold pushBossIfNew at 2. rewrite Hboss. cbn [negb]. exact IH.
Qed.

Lemma addBossesToList_covers l found :
  Forall (fun boss => hasBossNamed (name boss) (addBossesToList l found) = true) found.
Proof.
  unfold addBossesToList. revert l.
  induction found as [|boss found IH]; intros l; simpl; constructor.
  - apply (hasBossNamed_addBossesToList (name boss) (pushBossIfNew l boss) found).
    apply pushBossIfNew_named.
  - apply IH.
Qed.

Lemma addBossesToList_from l found :
  incl (addBossesToList l found) (l ++ found).
Proof.
  unfold addBossesToList. revert l.
  induction found as [|boss found IH]; intros l; simpl.
  - rewrite app_nil_r. apply incl_refl.
  - eapply incl_tran; [apply IH|]. unfold pushBossIfNew.
    destruct (negb _).
    + rewrite <- app_assoc. apply incl_refl.
    + apply incl_app; [apply incl_appl, incl_refl | apply incl_appr, incl_tl, incl_refl].
Qed.

(** X8. Adding parsed bosses to a list keeps the list as it is and appends
    bosses after it; every boss of the result is of the list or among the
    added ones; every added boss has its name in the result, under the first
    boss that carried it; adding the same bosses again changes nothing. *)
Theorem X8_add_bosses_first_wins :
  forall l found,
    (exists more, addBossesToList l found = l ++ more)
    /\ incl (addBossesToList l found) (l ++ found)
    /\ (forall boss, In boss found -> In (name boss) (map name (addBossesToList l found)))
    /\ addBossesToList (addBossesToList l found) found = addBossesToList l found.
Proof.
  intros l found. split; [|split; [|split]].
  - apply addBossesToList_extends.
  - apply addBossesToList_from.
  - intros boss Hin. apply hasBossNamed_In.
    pose proof (addBossesToList_covers l found) as H. rewrite Forall_forall in H.
    apply H, list_elem_of_In, Hin.
  - apply addBossesToList_known, addBossesToList_covers.
Qed.

Lemma X8_add_bosses_first_wins_witness :
  In (name zekrom)
     (map name (addBossesToList [kyuremBlack]
                  [zekrom; {| name := "Zekrom"; image := "zekrom-2.png";
                              canBeShiny := false; raidType := None |}])).
Proof.
  apply (proj1 (proj2 (proj2 (X8_add_bosses_first_wins _ _)))).
  left. reflexivity.
Defined.

(** ** Running a raid hour pass again *)

Lemma attachRaidHour_again t select t' select' day :
  raidHours (attachRaidHour t select day) <> [] ->
  attachRaidHour t' select' (attachRaidHour t select day) = attachRaidHour t select day.
Proof.
  intros H. unfold attachRaidHour at 1.
  destruct (raidHours (attachRaidHour t select day)); [contradiction | reflexivity].
Qed.

Lemma attachRaidHour_idempotent t select day :
  attachRaidHour t select (attachRaidHour t select day) = attachRaidHour t select day.
Proof.
  unfold attachRaidHour at 2 3.
  destruct (raidHours day) as [|w ws] eqn:E.
  - destruct (0 <? length (List.filter select (bosses day))) eqn:Hsome.
    + unfold attachRaidHour. simpl. now rewrite E.
    + unfold attachRaidHour. now rewrite E, Hsome.
  - unfold attachRaidHour. now rewrite E.
Qed.

Lemma attachRaidHour_windows t select day :
  length (raidHours (attachRaidHour t select day)) <= Nat.max 1 (length (raidHours day)).
Proof.
  unfold attachRaidHour. destruct (raidHours day) as [|w ws] eqn:E.
  - destruct (0 <? _); simpl; rewrite E; simpl; auto.
  - rewrite E. apply Nat.le_max_r.
Qed.

(** X9. A raid hour pass run a second time changes nothing, for the pass
    that ends [processRaidsSection] and for the pass of [get]; and after the
    two passes in a row a day has the windows it had, or one window if it
    had none: the passes never give a day a second window. *)
Theorem X9_raid_hour_passes_idempotent :
  forall gi gi' ed,
    createRaidHourEntries gi (createRaidHourEntries gi ed) = createRaidHourEntries gi ed
    /\ distributeFiveStarRaidHour gi (distributeFiveStarRaidHour gi ed)
       = distributeFiveStarRaidHour gi ed
    /\ Forall2 (fun day day' =>
                  length (raidHours day') <= Nat.max 1 (length (raidHours day)))
               (raidSchedule ed)
               (raidSchedule (distributeFiveStarRaidHour gi' (createRaidHourEntries gi ed))).
Proof.
  intros gi gi' ed. split; [|split].
  - unfold createRaidHourEntries.
    destruct (raidHourTime gi) as [t|]; [|reflexivity].
    destruct (truthy (Some t)); [|reflexivity].
    simpl. rewrite map_map. f_equal. apply map_ext. intros day.
    apply attachRaidHour_idempotent.
  - unfold distributeFiveStarRaidHour.
    destruct (raidHourTime gi) as [t|]; [|reflexivity].
    destruct (raidHourSectionId gi) as [sectionId|]; [|reflexivity].
    destruct (_ && _); [|reflexivity].
    simpl. rewrite map_map. f_equal. apply map_ext. intros day.
    apply attachRaidHour_idempotent.
  - assert (Hone : forall t select (schedule : list ScheduleDay),
               Forall2 (fun day day' =>
                          length (raidHours day') <= Nat.max 1 (length (raidHours day)))
                       schedule (map (attachRaidHour t select) schedule)).
    { intros t select schedule. induction schedule; simpl; constructor;
        [apply attachRaidHour_windows | assumption]. }
    assert (Hsame : forall schedule : list ScheduleDay,
               Forall2 (fun day day' =>
                          length (raidHours day') <= Nat.max 1 (length (raidHours day)))
                       schedule schedule).
    { intros schedule. induction schedule; constructor; [apply Nat.le_max_r | assumption]. }
    assert (Htwo : forall t select t' select' (schedule : list ScheduleDay),
               Forall2 (fun day day' =>
                          length (raidHours day') <= Nat.max 1 (length (raidHours day)))
                       schedule
                       (map (attachRaidHour t' select')
                            (map (attachRaidHour t select) schedule))).
    { intros t select t' select' schedule. induction schedule; simpl; constructor;
        [|assumption].
      destruct (raidHours (attachRaidHour t select a)) eqn:E.
      - eapply Nat.le_trans; [apply attachRaidHour_windows|]. rewrite E. simpl.
        apply Nat.le_max_l.
      - rewrite attachRaidHour_again by (rewrite E; discriminate).
        apply attachRaidHour_windows. }
    unfold distributeFiveStarRaidHour, createRaidHourEntries.
    destruct (raidHourTime gi') as [t'|];
      [destruct (raidHourSectionId gi') as [sectionId|]; [destruct (_ && _)|]|];
      destruct (raidHourTime gi) as [t|]; try destruct (truthy (Some t));
      simpl; auto.
Qed.

(** ** The records of [get] *)

Lemma fallback_records id bkp :
  Forall (fun rec => out_id rec = id /\ out_type rec = "event"
                     /\ exists data, out_data rec = Recovered data)
         (written (fallback id bkp))
  /\ length (written (fallback id bkp)) <= length (matchingEntries id bkp).
Proof.
  unfold matchingEntries.
  induction bkp as [|entry bkp [IHrec IHlen]]; simpl; [split; [constructor | auto]|].
  destruct (extraData entry) as [extra|]; [|now split].
  destruct (String.eqb (eventID entry) id); [|now split].
  destruct (keyCount _) as [n|]; simpl; [|split; [constructor | apply Nat.le_0_l]].
  destruct (0 <? n); simpl.
  - split; [constructor; eauto | now apply le_n_S].
  - split; [assumption | now apply Nat.le_le_succ_r].
Qed.

(** X10. Every record [get] writes carries the event id it was called
    with and the type "event". From a page with [.page-content] it writes
    exactly one record, with the extracted data, and completes, whatever the
    backup holds; otherwise it writes recovered data only, at most one record
    per entry of the backup that has the event id and extra data, so nothing
    with an empty backup. *)
Theorem X10_records_of_get :
  forall dom id bkp,
    Forall (fun rec => out_id rec = id /\ out_type rec = "event") (written (get dom id bkp))
    /\ (forall document pageContent,
           dom = Some document ->
           querySelector (has_class "page-content") document = Some pageContent ->
           get dom id bkp
           = mkOutcome [mkOutput id "event" (Extracted (extractEventData (node pageContent)))]
                       true)
    /\ ((forall document, dom = Some document ->
                          querySelector (has_class "page-content") document = None) ->
        Forall (fun rec => exists data, out_data rec = Recovered data)
               (written (get dom id bkp))
        /\ length (written (get dom id bkp)) <= length (matchingEntries id bkp)).
Proof.
  intros dom id bkp.
  destruct (fallback_records id bkp) as [Hrec Hlen].
  assert (Hids : Forall (fun rec => out_id rec = id /\ out_type rec = "event")
                        (written (fallback id bkp))).
  { eapply Forall_impl; [exact Hrec|]. intros rec (? & ? & _). now split. }
  assert (Hdata : Forall (fun rec => exists data, out_data rec = Recovered data)
                         (written (fallback id bkp))).
  { eapply Forall_impl; [exact Hrec|]. now intros rec (_ & _ & ?). }
  split; [|split].
  - unfold get. destruct dom as [document|]; [|assumption].
    destruct (querySelector _ document); [|assumption].
    simpl. constructor; [now split | constructor].
  - intros document pageContent -> Hpage. simpl. now rewrite Hpage.
  - intros Hnone. unfold get. destruct dom as [document|]; [|now split].
    rewrite (Hnone document eq_refl). now split.
Qed.

Lemma X10_records_of_get_witness :
  get (Some unovaDocument) "unova" sampleBackup = mkOutcome [unovaRecord] true.
Proof.
  refine (proj1 (proj2 (X10_records_of_get (Some unovaDocument) "unova" sampleBackup))
                unovaDocument (mkCursor unovaPage []) eq_refl _).
  vm_compute. reflexivity.
Defined.

(** ** The global information is well formed *)

Section GlobalInformation.

Variable G : GlobalInfo -> Prop.
Variable allowed : string -> Prop.

Hypothesis G_raidHour : forall sectionId element gi,
    allowed sectionId -> G gi -> G (sectionRaidHourText sectionId element gi).
Hypothesis G_note : forall element gi, G gi -> G (sectionBonusNote element gi).

Lemma sectionStep_info sectionId st element :
  allowed sectionId -> G (snd st) -> G (snd (sectionStep sectionId st element)).
Proof.
  destruct st as [[v ed] gi]. cbn [snd]. intros Hid H. unfold sectionStep.
  destruct (sectionHeading element (v, ed)) as [v1 ed1]. cbn [snd].
  now apply G_note, G_raidHour.
Qed.

Lemma sectionLoop_info sectionId elements st :
  allowed sectionId -> G (snd st) ->
  G (snd (fold_left (sectionStep sectionId) elements st)).
Proof.
  intros Hid. revert st. induction elements as [|element elements IH]; intros st H; simpl.
  - assumption.
  - apply IH. now apply sectionStep_info.
Qed.

Lemma processRaidsSection_info elements sectionId ed gi :
  allowed sectionId -> G gi -> G (snd (processRaidsSection elements sectionId ed gi)).
Proof.
  intros Hid H. unfold processRaidsSection, traverseRaidsSection.
  pose proof (sectionLoop_info sectionId elements
                (initialSectionVars sectionId, ed, gi) Hid H) as H1.
  destruct (fold_left _ elements _) as [[v ed'] gi']. exact H1.
Qed.

Lemma processAnchor_info pageContent sectionId st :
  allowed sectionId -> G (snd st) -> G (snd (processAnchor pageContent sectionId st)).
Proof.
  intros Hid H. unfold processAnchor.
  destruct (querySelector _ _); [now apply processRaidsSection_info | assumption].
Qed.

Lemma traversePage_info pageContent :
  allowed "raids" -> allowed "appearing-in-5-star-raids" -> G emptyGlobalInfo ->
  G (snd (traversePage pageContent)).
Proof.
  intros H1 H2 H. unfold traversePage. cbn [snd].
  apply processAnchor_info; [assumption|]. now apply processAnchor_info.
Qed.

End GlobalInformation.

Lemma pushKeyword_keeps k keywords :
  In k raidHourKeywords ->
  List.NoDup keywords /\ incl keywords raidHourKeywords ->
  List.NoDup (pushKeyword k keywords) /\ incl (pushKeyword k keywords) raidHourKeywords.
Proof.
  intros Hk [Hnd Hincl]. unfold pushKeyword.
  destruct (existsb (String.eqb k) keywords) eqn:E; simpl; [now split|].
  assert (Hnew : ~ In k keywords).
  { intros Hin. assert (Ht : existsb (String.eqb k) keywords = true).
    { apply existsb_exists. exists k. split; [assumption | apply String.eqb_refl]. }
    congruence. }
  split.
  - apply NoDup_ListNoDup, NoDup_app. repeat split.
    + now apply NoDup_ListNoDup.
    + intros x Hx Hx'. apply list_elem_of_In in Hx. apply list_elem_of_In in Hx'.
      destruct Hx' as [<-|[]]. contradiction.
    + apply NoDup_ListNoDup. constructor; [tauto | constructor].
  - apply incl_app; [assumption|]. intros x [<-|[]]. assumption.
Qed.

Lemma sectionRaidHourText_wellFormed sectionId element gi :
  anchorId sectionId -> infoWellFormed gi ->
  infoWellFormed (sectionRaidHourText sectionId element gi).
Proof.
  intros Hid (Htime & Hsection & Hanchor & Hnd & Hincl & Hnotes).
  unfold sectionRaidHourText.
  destruct (_ && _); [|repeat split; assumption]. simpl.
  assert (Hkw : forall (b : bool) k keywords,
             In k raidHourKeywords ->
             List.NoDup keywords /\ incl keywords raidHourKeywords ->
             List.NoDup (if b then pushKeyword k keywords else keywords)
             /\ incl (if b then pushKeyword k keywords else keywords) raidHourKeywords).
  { intros [] k keywords Hk H; [now apply pushKeyword_keeps | assumption]. }
  unfold infoWellFormed. simpl. split; [|split; [|split; [|split]]].
  - destruct (exec true sectionTimeRegex _); [apply localTime_append | assumption].
  - discriminate.
  - now intros sid [= <-].
  - repeat apply Hkw; simpl; tauto.
  - split; [|assumption]. repeat apply Hkw; simpl; tauto.
Qed.

Lemma sectionBonusNote_wellFormed element gi :
  infoWellFormed gi -> infoWellFormed (sectionBonusNote element gi).
Proof.
  intros (Htime & Hsection & Hanchor & Hnd & Hincl & Hnotes).
  unfold sectionBonusNote.
  destruct (has_tag "P" element); [|repeat split; assumption].
  destruct (_ || _); [|repeat split; assumption].
  destruct (10 <? String.length _) eqn:Hlen; [|repeat split; assumption].
  repeat split; simpl; try assumption.
  apply Forall_app. split; [assumption|]. constructor; [|constructor].
  now apply Nat.ltb_lt.
Qed.

Lemma infoWellFormed_empty : infoWellFormed emptyGlobalInfo.
Proof.
  unfold infoWellFormed. simpl. split; [exact I|]. split; [tauto|].
  split; [discriminate|]. split; [constructor|]. split; [|constructor].
  intros x [].
Qed.

Lemma traversePage_wellFormed pageContent :
  infoWellFormed (snd (traversePage pageContent)).
Proof.
  apply (traversePage_info infoWellFormed anchorId
           sectionRaidHourText_wellFormed sectionBonusNote_wellFormed).
  - now left.
  - now right.
  - apply infoWellFormed_empty.
Qed.

(** X11. The global information is well formed all along: after the
    traversal of any page (and after [processRaidsSection] on an anchor, from
    any well formed information) the raid hour time is null or a clock range
    followed by " local time", a time comes with the id of a section, that
    id is null or one of the two anchors, the recorded keywords are distinct
    and among "five-star", "shadow", "mega" and "primal", and every note is
    longer than 10 characters. *)
Theorem X11_global_info_well_formed :
  (forall pageContent, infoWellFormed (snd (traversePage pageContent)))
  /\ (forall elements sectionId ed gi,
         anchorId sectionId -> infoWellFormed gi ->
         infoWellFormed (snd (processRaidsSection elements sectionId ed gi))).
Proof.
  split.
  - apply traversePage_wellFormed.
  - intros elements sectionId ed gi.
    apply (processRaidsSection_info infoWellFormed anchorId
             sectionRaidHourText_wellFormed sectionBonusNote_wellFormed).
Qed.

Lemma X11_global_info_well_formed_witness :
  infoWellFormed (snd (processRaidsSection fiveStarSection "appearing-in-5-star-raids"
                                           emptyEventData emptyGlobalInfo)).
Proof.
  apply (proj2 X11_global_info_well_formed).
  - right. reflexivity.
  - apply infoWellFormed_empty.
Defined.

(** ** The bonuses of a day *)

(** X12. In the record [get] writes from a page, every bonus of a day is a
    note longer than 10 characters that names a boss of that day: its lower
    case text contains the lower case name of the boss, or that name without
    its parenthetical. *)
Theorem X12_bonuses_name_a_boss_of_the_day :
  forall dom id bkp rec ed day note,
    In rec (written (get dom id bkp)) -> out_data rec = Extracted ed ->
    In day (raidSchedule ed) -> In note (bonuses day) ->
    10 < String.length note
    /\ exists boss,
        In boss (bosses day)
        /\ (includes (toLowerCase note) (toLowerCase (name boss)) = true
            \/ includes (toLowerCase note)
                        (toLowerCase (remove_first false parenthetical (name boss))) = true).
Proof.
  intros dom id bkp rec ed day note Hin Hdata Hday Hnote.
  destruct (get_extracted _ _ _ _ _ Hin Hdata) as [pageContent ->].
  unfold extractEventData in Hday.
  pose proof (traversePage_no_bonuses pageContent) as Hnone.
  pose proof (traversePage_wellFormed pageContent) as Hinfo.
  destruct (traversePage pageContent) as [ed0 gi]. cbn [fst snd] in *.
  apply (distributeFiveStarRaidHour_no_bonuses gi) in Hnone. destruct Hnone as [Hnone _].
  destruct Hinfo as (_ & _ & _ & _ & _ & Hnotes).
  unfold distributeBonuses in Hday. rewrite distributeNotes_schedule in Hday.
  apply in_map_iff in Hday as (day0 & <- & Hday0).
  rewrite Forall_forall in Hnone.
  specialize (Hnone day0 (proj2 (list_elem_of_In _ _) Hday0)).
  simpl in Hnote. rewrite Hnone in Hnote. simpl in Hnote.
  unfold notesOfDay in Hnote. apply filter_In in Hnote as [Hrecorded Hmentions].
  split.
  - rewrite Forall_forall in Hnotes. apply Hnotes, list_elem_of_In, Hrecorded.
  - apply existsb_exists in Hmentions as (boss & Hboss & Hm). exists boss.
    split; [exact Hboss|]. unfold noteMentions in Hm. simpl in Hm.
    rewrite orb_false_r in Hm. now apply orb_true_iff in Hm.
Qed.

Lemma X12_bonuses_name_a_boss_of_the_day_witness :
  10 < String.length "Get Fusion Energy from Kyurem raids"
  /\ exists boss,
      In boss (bosses unovaDay)
      /\ (includes (toLowerCase "Get Fusion Energy from Kyurem raids")
                   (toLowerCase (name boss)) = true
          \/ includes (toLowerCase "Get Fusion Energy from Kyurem raids")
                      (toLowerCase (remove_first false parenthetical (name boss))) = true).
Proof.
  apply (X12_bonuses_name_a_boss_of_the_day (Some unovaDocument) "unova" [] unovaRecord
           unovaData unovaDay).
  - vm_compute. left. reflexivity.
  - reflexivity.
  - left. reflexivity.
  - left. reflexivity.
Defined.

(** ** A day section changes its own entry only *)

Lemma sameButBosses_refl i ed : sameButBosses i ed ed.
Proof.
  repeat split; try reflexivity. intros day H. exists day. auto.
Qed.

Lemma sameButBosses_trans i ed1 ed2 ed3 :
  sameButBosses i ed1 ed2 -> sameButBosses i ed2 ed3 -> sameButBosses i ed1 ed3.
Proof.
  intros (Hs & Hl & Hj & Hi) (Hs' & Hl' & Hj' & Hi').
  split; [congruence|]. split; [congruence|]. split.
  - intros j Hne. now rewrite Hj', Hj.
  - intros day Hday. destruct (Hi day Hday) as (day2 & Hday2 & Hd & Hr & Hb).
    destruct (Hi' day2 Hday2) as (day3 & Hday3 & Hd' & Hr' & Hb').
    exists day3. repeat split; congruence.
Qed.

Lemma addBossesToDay_same i found ed : sameButBosses i ed (addBossesToDay i found ed).
Proof.
  unfold addBossesToDay, updateDay. split; [reflexivity|]. simpl. split; [|split].
  - apply length_alter.
  - intros j Hne. apply list_lookup_alter_ne. congruence.
  - intros day Hday. rewrite list_lookup_alter_eq, Hday. simpl. eauto.
Qed.

Lemma dayLoop_same i elements st :
  sameButBosses i (snd st) (snd (fold_left (dayStep i) elements st)).
Proof.
  revert st. induction elements as [|element elements IH]; intros st; simpl.
  - apply sameButBosses_refl.
  - eapply sameButBosses_trans; [|apply IH].
    unfold dayStep, dayPokemonList. cbn [fst snd].
    destruct (_ && _); [apply addBossesToDay_same | apply sameButBosses_refl].
Qed.

Lemma dayRaidHourEntry_cases i v ed :
  dayRaidHourEntry i v ed = ed
  \/ exists day w, raidSchedule ed !! i = Some day
                   /\ dayRaidHourEntry i v ed = updateDay i (pushRaidHour w) ed.
Proof.
  unfold dayRaidHourEntry.
  destruct (_ && _); [|now left].
  destruct (d_raidHourTime v) as [t|]; [|now left].
  destruct (raidSchedule ed !! i) as [day|] eqn:Hday; [|now left].
  destruct (0 <? _); [|now left].
  right. eauto.
Qed.

Lemma findOrCreateDay_kept d ed j day :
  raidSchedule ed !! j = Some day ->
  raidSchedule (fst (findOrCreateDay d ed)) !! j = Some day.
Proof.
  intros H. unfold findOrCreateDay.
  destruct (findDateIndex d (raidSchedule ed)); simpl; [assumption|].
  rewrite lookup_app_l; [assumption | eapply lookup_lt_Some; eassumption].
Qed.

(** X13. [processDayRaidSection] works on the entry of its own date (the
    heading up to the colon, trimmed) and on nothing else: the static list
    and every other day are as they were, no day is added but the entry of
    that date when it was missing, and the entry keeps its date and bonuses
    and gets at most one raid hour window more. *)
Theorem X13_day_section_changes_its_entry_only :
  forall elements dayHeader ed gi,
    let baseDate := trim (before_sep ":" dayHeader) in
    let ed0 := fst (findOrCreateDay baseDate ed) in
    let entry := snd (findOrCreateDay baseDate ed) in
    let ed' := processDayRaidSection elements dayHeader ed gi in
    raidbattles ed' = raidbattles ed
    /\ length (raidSchedule ed') = length (raidSchedule ed0)
    /\ (forall j day, raidSchedule ed !! j = Some day -> date day <> baseDate ->
                      raidSchedule ed' !! j = Some day)
    /\ exists day0 day',
        raidSchedule ed0 !! entry = Some day0
        /\ raidSchedule ed' !! entry = Some day'
        /\ date day' = baseDate
        /\ bonuses day' = bonuses day0
        /\ (raidHours day' = raidHours day0 \/ exists w, raidHours day' = raidHours day0 ++ [w]).
Proof.
  intros elements dayHeader ed gi baseDate ed0 entry ed'.
  destruct (findOrCreateDay_lookup baseDate ed) as (day0 & Hday0 & Hdate0).
  fold ed0 entry in Hday0.
  assert (Hstatic0 : raidbattles ed0 = raidbattles ed).
  { unfold ed0, findOrCreateDay. now destruct (findDateIndex _ _). }
  assert (Hkept : forall j day, raidSchedule ed !! j = Some day ->
                                raidSchedule ed0 !! j = Some day).
  { intros j day. apply findOrCreateDay_kept. }
  unfold ed', processDayRaidSection. fold baseDate.
  destruct (findOrCreateDay baseDate ed) as [ed0' i] eqn:Hfc.
  cbn [fst snd] in ed0, entry. subst ed0 entry.
  pose proof (dayLoop_same i elements (mkDayVars None None [] false, ed0')) as Hloop.
  destruct (fold_left _ elements _) as [v ed1]. cbn [fst snd] in Hloop.
  destruct Hloop as (Hs & Hl & Hj & Hi).
  destruct (Hi day0 Hday0) as (day1 & Hday1 & Hd1 & Hr1 & Hb1).
  destruct (dayRaidHourEntry_cases i v ed1) as [->|(day1' & w & Hday1' & ->)].
  - split; [congruence|]. split; [assumption|]. split.
    + intros j day Hday Hne. rewrite Hj; [now apply Hkept|].
      intros ->. apply Hkept in Hday. congruence.
    + exists day0, day1. repeat split; try assumption; try congruence. now left.
  - unfold updateDay. simpl. split; [congruence|]. split; [now rewrite length_alter|].
    split.
    + intros j day Hday Hne.
      assert (Hji : j <> i).
      { intros ->. apply Hkept in Hday. congruence. }
      rewrite list_lookup_alter_ne by congruence. rewrite Hj by assumption.
      now apply Hkept.
    + exists day0, (pushRaidHour w day1).
      rewrite list_lookup_alter_eq, Hday1. simpl.
      repeat split; try assumption; try congruence.
      right. exists w. now rewrite Hr1.
Qed.

(** ** Pages and sections without raid headings *)

Lemma find_none_filter {A} (p q : A -> bool) l :
  (forall x, q x = true -> p x = true) -> List.filter p l = [] -> List.find q l = None.
Proof.
  intros Hqp. induction l as [|x l IH]; simpl; [reflexivity|].
  destruct (p x) eqn:Hp; [discriminate|].
  destruct (q x) eqn:Hq; [|assumption].
  apply Hqp in Hq. congruence.
Qed.

Lemma dayHeadings_skipped gi h2s ed :
  Forall (fun h2 => test true dayHeadingRegex (trim (textContent (node h2))) = false) h2s ->
  fold_left (processDayHeading gi) h2s ed = ed.
Proof.
  induction 1 as [|h2 h2s Hh2 _ IH]; simpl; [reflexivity|].
  unfold processDayHeading at 2. now rewrite Hh2.
Qed.

(** X14. A page gives the empty record when it has neither anchor
    ([h2#raids], [h2#appearing-in-5-star-raids]) and none of its H2 headings
    starts with a weekday and a date: lists of bosses and raid hour text
    elsewhere on the page are not read. In particular a page without H2
    headings gives the empty record. *)
Theorem X14_page_without_raid_sections :
  forall pageContent,
    (querySelector (h2_with_id "raids") pageContent = None ->
     querySelector (h2_with_id "appearing-in-5-star-raids") pageContent = None ->
     Forall (fun h2 => test true dayHeadingRegex (trim (textContent (node h2))) = false)
            (querySelectorAll (has_tag "H2") pageContent) ->
     extractEventData pageContent = emptyEventData)
    /\ (querySelectorAll (has_tag "H2") pageContent = [] ->
        extractEventData pageContent = emptyEventData).
Proof.
  intros pageContent.
  assert (Hgeneral :
            querySelector (h2_with_id "raids") pageContent = None ->
            querySelector (h2_with_id "appearing-in-5-star-raids") pageContent = None ->
            Forall (fun h2 => test true dayHeadingRegex (trim (textContent (node h2))) = false)
                   (querySelectorAll (has_tag "H2") pageContent) ->
            extractEventData pageContent = emptyEventData).
  { intros Hraids Hfive Hdays.
    unfold extractEventData, traversePage, processAnchor.
    rewrite Hraids. cbn [fst snd]. rewrite Hfive. cbn [fst snd].
    rewrite (dayHeadings_skipped _ _ _ Hdays). reflexivity. }
  split; [exact Hgeneral|].
  intros Hnone. unfold querySelectorAll in Hnone.
  apply Hgeneral.
  - unfold querySelector. eapply find_none_filter; [|exact Hnone].
    intros c Hc. unfold h2_with_id in Hc. now apply andb_true_iff in Hc.
  - unfold querySelector. eapply find_none_filter; [|exact Hnone].
    intros c Hc. unfold h2_with_id in Hc. now apply andb_true_iff in Hc.
  - unfold querySelectorAll. rewrite Hnone. constructor.
Qed.

Lemma X14_page_without_raid_sections_witness :
  extractEventData bonusesPage = emptyEventData.
Proof.
  apply (proj1 (X14_page_without_raid_sections bonusesPage)).
  - reflexivity.
  - reflexivity.
  - vm_compute. repeat constructor.
Defined.

Lemma dayStep_without_heading i element ed :
  has_tag "H3" element = false ->
  dayStep i (mkDayVars None None [] false, ed) element = (mkDayVars None None [] false, ed).
Proof.
  intros H. unfold dayStep, dayHeading, dayPokemonList, dayRaidHourText. cbn [fst snd].
  rewrite H. simpl. now rewrite !andb_false_r.
Qed.

(** X15. In a day section the lists of bosses and the raid hour text are
    read under an H3 heading only: a day section without H3 headings finds
    or creates the entry of its date and changes nothing else, whatever
    lists and paragraphs it holds. *)
Theorem X15_day_section_without_headings :
  forall elements dayHeader ed gi,
    Forall (fun element => has_tag "H3" element = false) elements ->
    processDayRaidSection elements dayHeader ed gi
    = fst (findOrCreateDay (trim (before_sep ":" dayHeader)) ed).
Proof.
  intros elements dayHeader ed gi Hnone. unfold processDayRaidSection.
  destruct (findOrCreateDay _ ed) as [ed0 i]. cbn [fst].
  assert (Hloop : fold_left (dayStep i) elements (mkDayVars None None [] false, ed0)
                  = (mkDayVars None None [] false, ed0)).
  { induction Hnone as [|element elements Helement _ IH]; simpl; [reflexivity|].
    now rewrite dayStep_without_heading. }
  rewrite Hloop. reflexivity.
Qed.

Lemma X15_day_section_without_headings_witness :
  processDayRaidSection
    [pokemonList [pokemon true "Kyurem" "kyurem.png"];
     p "Raid Hour featuring Kyurem from 6:00 p.m. to 7:00 p.m. local time."]
    "Friday, February 27: Unova" emptyEventData emptyGlobalInfo
  = {| raidSchedule := [newDay "Friday, February 27"]; raidbattles := [] |}.
Proof.
  refine (X15_day_section_without_headings _ "Friday, February 27: Unova"
            emptyEventData emptyGlobalInfo _).
  repeat constructor.
Defined.

(** ** The record comes back from the backup *)

Lemma fallbackDataOf_eventDataJson ed :
  finalExtraData "event" (eventDataJson ed)
  = Some [("raidSchedule", JArray (map dayJson (raidSchedule ed)));
          ("raidbattles", JArray (map bossJson (raidbattles ed)))]
  /\ fallbackDataOf [("raidSchedule", JArray (map dayJson (raidSchedule ed)));
                     ("raidbattles", JArray (map bossJson (raidbattles ed)))]
     = eventDataJson ed.
Proof. split; reflexivity. Qed.

(** X16. What [get] extracts comes back from the backup: the final form
    the test harness builds from a written record of type "event" carries
    both lists of the record in its [extraData], and when that final form is
    the entry of the event in the backup, a later call of [get] that cannot
    fetch the page writes a record with the same data and completes. *)
Theorem X16_record_comes_back_from_backup :
  forall id ed before after,
    Forall (passedOver id) before -> Forall (passedOver id) after ->
    exists extra,
      finalExtraData "event" (recordDataJson (Extracted ed)) = Some extra
      /\ get None id (before ++ mkBackup id (Some extra) :: after)
         = mkOutcome [mkOutput id "event" (Recovered (recordDataJson (Extracted ed)))] true
      /\ finalExtraData "event" (recordDataJson (Recovered (recordDataJson (Extracted ed))))
         = Some extra.
Proof.
  intros id ed before after Hbefore Hafter.
  destruct (fallbackDataOf_eventDataJson ed) as [Hfinal Hback].
  eexists. split; [exact Hfinal|]. split; [|exact Hfinal].
  simpl get. rewrite fallback_app by now rewrite (fallback_passedOver id before).
  rewrite (fallback_passedOver id before Hbefore). simpl.
  rewrite String.eqb_refl, (fallback_passedOver id after Hafter). reflexivity.
Qed.

Lemma X16_record_comes_back_from_backup_witness :
  exists extra,
    finalExtraData "event" (recordDataJson (Extracted unovaData)) = Some extra
    /\ get None "unova" ([mkBackup "community-day" None] ++ mkBackup "unova" (Some extra) :: [])
       = mkOutcome [mkOutput "unova" "event" (Recovered (recordDataJson (Extracted unovaData)))]
                   true
    /\ finalExtraData "event"
                      (recordDataJson (Recovered (recordDataJson (Extracted unovaData))))
       = Some extra.
Proof.
  apply (X16_record_comes_back_from_backup "unova" unovaData
           [mkBackup "community-day" None] []).
  - constructor; [right; reflexivity | constructor].
  - constructor.
Defined.

(** ** The static list belongs to the anchored sections *)

Lemma processDayRaidSection_static elements dayHeader ed gi :
  raidbattles (processDayRaidSection elements dayHeader ed gi) = raidbattles ed.
Proof.
  unfold processDayRaidSection.
  assert (H0 : raidbattles (fst (findOrCreateDay (trim (before_sep ":" dayHeader)) ed))
               = raidbattles ed).
  { unfold findOrCreateDay. now destruct (findDateIndex _ _). }
  destruct (findOrCreateDay _ ed) as [ed0 i]. cbn [fst] in H0.
  pose proof (dayLoop_same i elements (mkDayVars None None [] false, ed0)) as [Hs _].
  destruct (fold_left _ elements _) as [v ed1]. cbn [snd] in Hs.
  destruct (dayRaidHourEntry_cases i v ed1) as [->|(day & w & _ & ->)]; simpl; congruence.
Qed.

Lemma dayHeadings_static gi h2s ed :
  raidbattles (fold_left (processDayHeading gi) h2s ed) = raidbattles ed.
Proof.
  revert ed. induction h2s as [|h2 h2s IH]; intros ed; simpl; [reflexivity|].
  rewrite IH. unfold processDayHeading.
  destruct (test _ _ _); [apply processDayRaidSection_static | reflexivity].
Qed.

Lemma distributeFiveStarRaidHour_static gi ed :
  raidbattles (distributeFiveStarRaidHour gi ed) = raidbattles ed.
Proof.
  unfold distributeFiveStarRaidHour.
  destruct (raidHourTime gi); [|reflexivity].
  destruct (raidHourSectionId gi); [|reflexivity].
  now destruct (_ && _).
Qed.

Lemma distributeBonuses_static gi ed :
  raidbattles (distributeBonuses gi ed) = raidbattles ed.
Proof.
  unfold distributeBonuses. revert ed.
  induction (specialNotes gi) as [|note notes IH]; intros ed; simpl; [reflexivity|].
  now rewrite IH.
Qed.

(** X17. The static list [raidbattles] belongs to the anchored sections:
    the day sections and the passes of [get] leave it as the two calls of
    [processRaidsSection] made it, so a page without the two anchors, however
    many day sections it has, gives an empty [raidbattles]. *)
Theorem X17_static_list_from_anchors_only :
  forall pageContent,
    raidbattles (extractEventData pageContent)
    = raidbattles (fst (processAnchor pageContent "appearing-in-5-star-raids"
                          (processAnchor pageContent "raids"
                             (emptyEventData, emptyGlobalInfo))))
    /\ (querySelector (h2_with_id "raids") pageContent = None ->
        querySelector (h2_with_id "appearing-in-5-star-raids") pageContent = None ->
        raidbattles (extractEventData pageContent) = []).
Proof.
  intros pageContent.
  assert (H : raidbattles (extractEventData pageContent)
              = raidbattles (fst (processAnchor pageContent "appearing-in-5-star-raids"
                                    (processAnchor pageContent "raids"
                                       (emptyEventData, emptyGlobalInfo))))).
  { unfold extractEventData, traversePage.
    rewrite distributeBonuses_static, distributeFiveStarRaidHour_static. cbn [fst].
    apply dayHeadings_static. }
  split; [exact H|].
  intros Hraids Hfive. rewrite H. unfold processAnchor.
  rewrite Hraids. cbn [fst snd]. now rewrite Hfive.
Qed.

Lemma X17_static_list_from_anchors_only_witness :
  raidbattles (extractEventData megaDayPage)
  = raidbattles (fst (processAnchor megaDayPage "appearing-in-5-star-raids"
                        (processAnchor megaDayPage "raids"
                           (emptyEventData, emptyGlobalInfo))))
  /\ raidbattles (extractEventData bonusesPage) = [].
Proof.
  split.
  - apply (proj1 (X17_static_list_from_anchors_only megaDayPage)).
  - apply (proj2 (X17_static_list_from_anchors_only bonusesPage)); reflexivity.
Defined.

(** ** A raids section without headings *)








Lemma X2_extraction_only_appends_witness :
  grows emptyEventData
        (fst (processRaidsSection fiveStarSection "appearing-in-5-star-raids"
                                  emptyEventData emptyGlobalInfo)).
Proof.
  apply (proj1 X2_extraction_only_appends).
Defined.

Lemma X13_day_section_changes_its_entry_only_witness :
  raidSchedule (processDayRaidSection
                  [h3 "Five-Star Raids"; pokemonList [pokemon true "Zekrom" "zekrom.png"]]
                  "Friday, February 27: Unova"
                  {| raidSchedule := [fiveStarDay]; raidbattles := [] |}
                  emptyGlobalInfo) !! 0
  = Some fiveStarDay.
Proof.
  refine (proj1 (proj2 (proj2 (X13_day_section_changes_its_entry_only
                                 _ "Friday, February 27: Unova"
                                 {| raidSchedule := [fiveStarDay]; raidbattles := [] |}
                                 emptyGlobalInfo))) 0 fiveStarDay _ _).
  - reflexivity.
  - vm_compute. discriminate.
Defined.
